(** * Composite equity performance: the data fetcher's numeric transforms

    A shallow embedding of [fetch_data.py]: the frequency selector
    ([calculate_optimal_frequency]), the resampler ([resample_data]), the
    normalizer inside [fetch_equity_data], the composite aggregator
    ([calculate_composite]) and the orchestration of [main].

    Conventions of the embedding.
    - Numbers.  Python [int] is [Z].  In the tables of the resampler and of
      the normalizer, and in the series they produce, a float is the
      rational number it stands for, products, quotients and sums are the
      exact ones, and [round(x, 2)] is rounding to the nearest hundredth,
      ties to even; a missing value (NaN in a pandas table) is [None].
      This fixes which rows and fields a result has, their dates and their
      order, but not the last digit of a stored value: the value the
      aggregator stores is embedded a second time, in the module
      [Binary64], over the binary64 floats of the machine.
    - Dates.  A ['YYYY-MM-DD'] string is the record [Date] of its three
      numbers; [to_datetime] is the check [pd.to_datetime] performs on it
      (a date that does not exist raises), and the pandas timestamp of a
      valid date is the date itself, at midnight.  The limits of the 64-bit
      nanosecond clock of pandas are not modelled.
    - Dicts.  A Python dict is an association list in insertion order,
      read with [dict_get] and written with [dict_set].  A data point
      [{'date': d, sym: v, ...}] is the record [PricePoint] of its date
      and of the remaining entries.  The key ['date'] is a key of every
      point all the same: a weight for a symbol called ["date"] makes the
      aggregator multiply the date string by a float, which raises
      ([calculate_composite_call]); in [Binary64] a point is the dict
      itself, with its ['date'] entry.  The points of a series are distinct
      objects, so that the update of a point in place is the update of one
      element of the list.
    - Exceptions.  A function that can raise returns [option]. *)

From Stdlib Require Import ZArith QArith Qround String List Bool Lia Lqa Sorted.
From Stdlib Require PrimFloat FloatOps SpecFloat.
Import ListNotations.
Import PrimFloat.

Local Open Scope Z_scope.

(** ** Numbers *)

Module Num.

(** Nearest integer, ties to the even neighbour. *)
Definition round_half_even (x : Q) : Z :=
  let f := Qfloor x in
  match Qcompare (x - inject_Z f) (1 # 2) with
  | Lt => f
  | Gt => f + 1
  | Eq => if Z.even f then f else f + 1
  end.

(** [round(x, 2)]. The result is in lowest terms, so that two rounded
    values are equal as numbers exactly when they are equal terms. *)
Definition round2 (x : Q) : Q := Qred (round_half_even (x * 100) # 100).

(** [sum(xs)] *)
Definition sum (xs : list Q) : Q := fold_left Qplus xs 0%Q.

(** [int(a / b)] for Python ints [a] and [b]: the true quotient, truncated
    toward zero. *)
Definition int_of_quotient (a b : Z) : Z := Z.quot a b.

End Num.

(** ** Calendar *)

Module Calendar.

Record Date : Type := mkDate { year : Z; month : Z; day : Z }.

Definition is_leap (y : Z) : bool :=
  (y mod 4 =? 0) && (negb (y mod 100 =? 0) || (y mod 400 =? 0)).

Definition days_in_month (y m : Z) : Z :=
  match m with
  | 2 => if is_leap y then 29 else 28
  | 4 | 6 | 9 | 11 => 30
  | _ => 31
  end.

Definition valid_date (d : Date) : bool :=
  (1 <=? year d) && (year d <=? 9999) &&
  (1 <=? month d) && (month d <=? 12) &&
  (1 <=? day d) && (day d <=? days_in_month (year d) (month d)).

(** [pd.to_datetime]: raises on a string that is not a calendar date. *)
Definition to_datetime (d : Date) : option Date :=
  if valid_date d then Some d else None.

(** Days before January 1st of year [y], and before the first of month [m]
    of year [y] (the proleptic Gregorian ordinal of [datetime]). *)
Definition days_before_year (y : Z) : Z :=
  (y - 1) * 365 + (y - 1) / 4 - (y - 1) / 100 + (y - 1) / 400.

Definition days_before_month (y m : Z) : Z :=
  match m with
  | 1 => 0 | 2 => 31 | 3 => 59 | 4 => 90 | 5 => 120 | 6 => 151
  | 7 => 181 | 8 => 212 | 9 => 243 | 10 => 273 | 11 => 304 | _ => 334
  end + (if (2 <? m) && is_leap y then 1 else 0).

Definition toordinal (d : Date) : Z :=
  days_before_year (year d) + days_before_month (year d) (month d) + day d.

(** [(b - a).days] for two timestamps at midnight. *)
Definition days_between (a b : Date) : Z := toordinal b - toordinal a.

(** Monday is 0 and Sunday is 6. *)
Definition weekday (d : Date) : Z := (toordinal d + 6) mod 7.

Definition next_day (d : Date) : Date :=
  if day d <? days_in_month (year d) (month d)
  then mkDate (year d) (month d) (day d + 1)
  else if month d <? 12
       then mkDate (year d) (month d + 1) 1
       else mkDate (year d + 1) 1 1.

Fixpoint add_days (d : Date) (n : nat) : Date :=
  match n with
  | O => d
  | S n' => add_days (next_day d) n'
  end.

(** Chronological order. *)
Definition date_compare (a b : Date) : comparison :=
  match year a ?= year b with
  | Eq => match month a ?= month b with
          | Eq => day a ?= day b
          | c => c
          end
  | c => c
  end.

Definition date_ltb (a b : Date) : bool :=
  match date_compare a b with Lt => true | _ => false end.

Definition date_leb (a b : Date) : bool :=
  match date_compare a b with Gt => false | _ => true end.

Definition date_eqb (a b : Date) : bool :=
  match date_compare a b with Eq => true | _ => false end.

(** The label of the bin of [d] for the pandas rule ['W'] (weeks ending on
    Sunday, closed and labelled on the right): the first Sunday on or
    after [d]. *)
Definition week_end (d : Date) : Date := add_days d (Z.to_nat (6 - weekday d)).

(** The label of the bin of [d] for the pandas rule ['M']: the last day of
    the month of [d]. *)
Definition month_end (d : Date) : Date :=
  mkDate (year d) (month d) (days_in_month (year d) (month d)).

End Calendar.

Import Calendar.

(** ** Frequency selector *)

(** The source also computes [estimated_months], which it never reads. *)
Definition calculate_optimal_frequency
    (start_date end_date : Date) (max_samples : Z) : option string :=
  match to_datetime start_date with
  | None => None
  | Some start =>
    match to_datetime end_date with
    | None => None
    | Some end_ =>
      let days_diff := days_between start end_ in
      let estimated_trading_days := Num.int_of_quotient (days_diff * 252) 365 in
      let estimated_weeks := (inject_Z estimated_trading_days / 5)%Q in
      if estimated_trading_days <=? max_samples then Some "daily"%string
      else if Qle_bool estimated_weeks (inject_Z max_samples) then Some "weekly"%string
      else Some "monthly"%string
    end
  end.

(** ** Dicts and data points *)

Definition dict (V : Type) : Type := list (string * V).

Fixpoint dict_get {V : Type} (k : string) (d : dict V) : option V :=
  match d with
  | [] => None
  | (k', v) :: d' => if String.eqb k k' then Some v else dict_get k d'
  end.

(** [k in d] *)
Definition dict_mem {V : Type} (k : string) (d : dict V) : bool :=
  match dict_get k d with Some _ => true | None => false end.

(** [d[k] = v]: an existing key keeps its place, a new key goes last. *)
Fixpoint dict_set {V : Type} (k : string) (v : V) (d : dict V) : dict V :=
  match d with
  | [] => [(k, v)]
  | (k', v') :: d' =>
      if String.eqb k k' then (k', v) :: d' else (k', v') :: dict_set k v d'
  end.

Definition keys {V : Type} (d : dict V) : list string := map fst d.

(** One element of the data list: [{'date': date, sym: value, ...}]. *)
Record PricePoint : Type := mkPoint { date : Date; values : dict Q }.

(** [point[k] = v] for a key other than ['date']. *)
Definition point_set (k : string) (v : Q) (point : PricePoint) : PricePoint :=
  mkPoint (date point) (dict_set k v (values point)).

(** ** Tables (pandas) *)

Module Pandas.

(** A frame indexed by date: the column names, and per row its index label
    and its cells; a NaN cell is [None], and so is every cell of a name
    that is not a column. *)
Definition Row : Type := (Date * (string -> option Q))%type.

Record DataFrame : Type := mkFrame { columns : list string; rows : list Row }.

Definition label_of (r : Row) : Date := fst r.
Definition cell (r : Row) (c : string) : option Q := snd r c.

Definition mem_string (s : string) (l : list string) : bool :=
  existsb (String.eqb s) l.

(** The columns of [pd.DataFrame(records)]: the keys of the records, each
    once, in the order of their first appearance. *)
Definition add_columns (cols : list string) (ks : list string) : list string :=
  fold_left (fun acc k => if mem_string k acc then acc else acc ++ [k]) ks cols.

Definition columns_of_records (data : list PricePoint) : list string :=
  fold_left (fun acc p => add_columns acc (keys (values p))) data [].

(** [pd.to_datetime] on the whole date column: raises when one entry is not
    a date. *)
Fixpoint to_datetime_all (data : list PricePoint) : option (list PricePoint) :=
  match data with
  | [] => Some []
  | p :: rest =>
      match to_datetime (date p), to_datetime_all rest with
      | Some d, Some rest' => Some (mkPoint d (values p) :: rest')
      | _, _ => None
      end
  end.

(** The row of a record: its date, and the value it has for a column, NaN
    when it has none. *)
Definition row_of_record (p : PricePoint) : Row :=
  (date p, fun c => dict_get c (values p)).

(** [df = pd.DataFrame(data); df['date'] = pd.to_datetime(df['date']);
    df.set_index('date')]. *)
Definition frame_of_records (data : list PricePoint) : option DataFrame :=
  match to_datetime_all data with
  | None => None
  | Some pts => Some (mkFrame (columns_of_records pts) (map row_of_record pts))
  end.

(** Resampling sorts the rows by their timestamp first; the sort is stable. *)
Fixpoint insert_row (r : Row) (l : list Row) : list Row :=
  match l with
  | [] => [r]
  | r' :: l' =>
      if date_ltb (label_of r) (label_of r') then r :: l
      else r' :: insert_row r l'
  end.

Definition sort_index (l : list Row) : list Row :=
  fold_left (fun acc r => insert_row r acc) l [].

(** The labels of the occupied bins, ascending, each once.  (pandas lays out
    every bin between the first and the last one; a bin without rows gives
    an all-NaN row, which [dropna(how='all')] removes right after.) *)
Fixpoint insert_label (L : Date) (l : list Date) : list Date :=
  match l with
  | [] => [L]
  | L' :: l' =>
      match date_compare L L' with
      | Lt => L :: l
      | Eq => l
      | Gt => L' :: insert_label L l'
      end
  end.

Definition bin_labels (bin_of : Date -> Date) (l : list Row) : list Date :=
  fold_right (fun r acc => insert_label (bin_of (label_of r)) acc) [] l.

(** [last()] on one column of one bin: the last entry that is not NaN. *)
Definition last_valid (col : list (option Q)) : option Q :=
  fold_left (fun acc c => match c with Some v => Some v | None => acc end) col None.

Definition rows_of_bin (bin_of : Date -> Date) (L : Date) (l : list Row) : list Row :=
  filter (fun r => date_eqb (bin_of (label_of r)) L) l.

(** [df.resample(rule).last()], without the bins that hold no row. *)
Definition resample_last (bin_of : Date -> Date) (df : DataFrame) : DataFrame :=
  let sorted := sort_index (rows df) in
  mkFrame (columns df)
    (map (fun L =>
            let bin := rows_of_bin bin_of L sorted in
            (L, fun c => if mem_string c (columns df)
                         then last_valid (map (fun r => cell r c) bin)
                         else None))
         (bin_labels bin_of sorted)).

Definition notna (c : option Q) : bool :=
  match c with Some _ => true | None => false end.

(** [df.dropna(how='all')] *)
Definition dropna_all (df : DataFrame) : DataFrame :=
  mkFrame (columns df)
    (filter (fun r => existsb (fun c => notna (cell r c)) (columns df)) (rows df)).

(** A column as a series: index labels and values. *)
Definition Series : Type := list (Date * option Q).

Definition column (df : DataFrame) (c : string) : Series :=
  map (fun r => (label_of r, cell r c)) (rows df).

(** [series.dropna()] *)
Fixpoint dropna (s : Series) : list (Date * Q) :=
  match s with
  | [] => []
  | (d, Some v) :: s' => (d, v) :: dropna s'
  | (_, None) :: s' => dropna s'
  end.

(** The value of a series at an index label ([None] when the label is not
    in its index). *)
Fixpoint series_at (s : Series) (d : Date) : option Q :=
  match s with
  | [] => None
  | (d', v) :: s' => if date_eqb d d' then v else series_at s' d
  end.

(** [df[c] = s] for a series [s].  A frame without rows takes the index of
    [s]; a frame with rows keeps its own index and [s] is aligned to it:
    the values of [s] at labels outside that index are left out, and the
    labels [s] has no value for are NaN. *)
Definition set_column (df : DataFrame) (c : string) (s : Series) : DataFrame :=
  let cols := if mem_string c (columns df) then columns df else columns df ++ [c] in
  match rows df, s with
  | [], _ :: _ =>
      mkFrame cols
        (map (fun dv => (fst dv, fun c' => if String.eqb c' c then snd dv else None)) s)
  | _, _ =>
      mkFrame cols
        (map (fun r => (label_of r,
                        fun c' => if String.eqb c' c then series_at s (label_of r)
                                  else cell r c'))
             (rows df))
  end.

(** [s.to_frame(name=name)] *)
Definition to_frame (name : string) (s : Series) : DataFrame :=
  mkFrame [name]
    (map (fun dv => (fst dv, fun c => if String.eqb c name then snd dv else None)) s).

End Pandas.

Import Pandas.

(** ** Resampler *)

(** The body of the loop over [resampled.iterrows()].  The date is the
    index of the frame and not one of its columns, so the test
    [col != 'date'] holds for every column. *)
Definition entry_of_row (cols : list string) (r : Row) : PricePoint :=
  mkPoint (label_of r)
    (fold_left (fun entry col =>
                  match cell r col with
                  | Some v => dict_set col (Num.round2 v) entry
                  | None => entry
                  end) cols []).

(** [len(entry) > 1]: the entry has a field besides its date. *)
Definition has_values (entry : PricePoint) : bool :=
  1 <? Z.of_nat (S (length (values entry))).

(** The loop that fills [result]. *)
Definition entries_of_frame (df : DataFrame) : list PricePoint :=
  filter has_values (map (entry_of_row (columns df)) (rows df)).

Definition resample_data (data : list PricePoint) (frequency : string)
  : option (list PricePoint) :=
  if String.eqb frequency "daily" then Some data
  else match data with
  | [] => Some data
  | _ :: _ =>
    match frame_of_records data with
    | None => None
    | Some df =>
        match (if String.eqb frequency "weekly" then Some (resample_last week_end df)
               else if String.eqb frequency "monthly" then Some (resample_last month_end df)
               else None)
        with
        | None => Some data
        | Some resampled =>
            let resampled := dropna_all resampled in
            Some (entries_of_frame resampled)
        end
    end
  end.

(** ** Output and exceptions *)

Inductive message : Type :=
| MsgAutoSelected (frequency : string)
| MsgUsingSpecified (frequency : string)
| MsgFetching (symbols : list string) (start_date end_date : Date)
| MsgFrequency (frequency : string)
| MsgNoData
| MsgWeightsWarning (n_weights n_symbols : nat)
| MsgSaved (path : string)
| MsgCount (n : nat)
| MsgSymbols (symbols : list string)
| MsgWeights (weights : dict Q)
| MsgSampleFirstDay
| MsgSampleLastDay
| MsgPoint (point : PricePoint).

(** The object [main] hands to [json.dump]. *)
Record Document : Type := mkDocument {
  doc_symbols : list string;
  doc_weights : dict Q;
  doc_start_date : Date;
  doc_end_date : Date;
  doc_data : list PricePoint
}.

Inductive event : Type :=
| Print (m : message)
| WriteJson (path : string) (doc : Document).

(** A run: what it printed and wrote so far, and its result, [None] once an
    exception is raised. *)
Definition IO (A : Type) : Type := (list event * option A)%type.

Definition ret {A : Type} (a : A) : IO A := ([], Some a).

Definition bind {A B : Type} (m : IO A) (f : A -> IO B) : IO B :=
  match m with
  | (evs, None) => (evs, None)
  | (evs, Some a) => let (evs', r) := f a in (evs ++ evs', r)
  end.

Definition print (m : message) : IO unit := ([Print m], Some tt).

Definition write_json (path : string) (doc : Document) : IO unit :=
  ([WriteJson path doc], Some tt).

(** The result of a computation that may raise. *)
Definition lift {A : Type} (o : option A) : IO A := ([], o).

Notation "x <- m ;; k" := (bind m (fun x => k))
  (at level 61, m at next level, right associativity).
Notation "m ;;; k" := (bind m (fun _ => k))
  (at level 61, right associativity).

(** ** Normalizer *)

(** [x / y] on NumPy floats never raises: a quotient by zero is NaN or an
    infinity.  The embedding has no infinity and gives the missing value for
    both. *)
Definition np_div (x y : Q) : option Q :=
  if Qeq_bool y 0 then None else Some (x / y)%Q.

(** The loop of [fetch_equity_data] that fills [normalized].  The quotient
    and the product are the exact ones: which cells the frame has, and at
    which dates, is as in the source; the number in a cell is the source's
    up to the rounding of binary64. *)
Definition normalize (symbols : list string) (close_prices : DataFrame) : DataFrame :=
  fold_left
    (fun normalized symbol =>
       if mem_string symbol (columns close_prices) then
         let series := dropna (column close_prices symbol) in
         match series with
         | [] => normalized
         | (_, start_price) :: _ =>
             set_column normalized symbol
               (map (fun dv => (fst dv,
                                match np_div (snd dv) start_price with
                                | Some q => Some (q * 100)%Q
                                | None => None
                                end)) series)
         end
       else normalized)
    symbols (mkFrame [] []).

(** The loop of [fetch_equity_data] that turns [normalized] into the list
    of data points. *)
Definition entry_of_normalized (symbols : list string) (normalized : DataFrame)
    (r : Row) : PricePoint :=
  mkPoint (label_of r)
    (fold_left (fun entry symbol =>
                  if mem_string symbol (columns normalized) then
                    match cell r symbol with
                    | Some v => dict_set symbol (Num.round2 v) entry
                    | None => entry
                    end
                  else entry) symbols []).

Definition records_of_normalized (symbols : list string) (normalized : DataFrame)
  : list PricePoint :=
  filter has_values
         (map (entry_of_normalized symbols normalized) (rows normalized)).

(** What the provider returns as [data['Close']]: a series when it was
    asked for one symbol, a frame with a column per symbol otherwise, both
    indexed by trading date. *)
Inductive Closes : Type :=
| CloseSeries (s : Series)
| CloseFrame (df : DataFrame).

(** The table [close_prices].  A frame has no [to_frame] and a series has no
    [columns]: the provider's answer in the other shape raises, except with
    no symbol at all, when the table is never read. *)
Definition close_prices_of (symbols : list string) (closes : Closes)
  : option DataFrame :=
  match symbols, closes with
  | [symbol], CloseSeries s => Some (to_frame symbol s)
  | [_], CloseFrame _ => None
  | _, CloseFrame df => Some df
  | [], CloseSeries _ => Some (mkFrame [] [])
  | _, CloseSeries _ => None
  end.

(** [fetch_equity_data], given what [yf.download] returned as
    [data['Close']]. *)
Definition fetch_equity_data (closes : Closes) (symbols : list string)
    (start_date end_date : Date) (frequency : string) : IO (list PricePoint) :=
  print (MsgFetching symbols start_date end_date) ;;;
  print (MsgFrequency frequency) ;;;
  close_prices <- lift (close_prices_of symbols closes) ;;
  let normalized := normalize symbols close_prices in
  let result := records_of_normalized symbols normalized in
  lift (resample_data result frequency).

(** ** Composite aggregator *)

(** The value the inner loop of [calculate_composite] leaves in
    [composite], for a point whose weighted entries are numbers, in exact
    arithmetic. *)
Definition composite_of (point : PricePoint) (weights : dict Q) (total_weight : Q) : Q :=
  fold_left
    (fun composite sw =>
       match dict_get (fst sw) (values point) with
       | Some v => (composite + v * (snd sw / total_weight))%Q
       | None => composite
       end)
    weights 0%Q.

(** The list [calculate_composite] returns when it returns. *)
Definition calculate_composite (data : list PricePoint) (weights : dict Q)
  : list PricePoint :=
  let total_weight := Num.sum (map snd weights) in
  if Qeq_bool total_weight 0 then data
  else map (fun point =>
              point_set "Composite" (Num.round2 (composite_of point weights total_weight)) point)
           data.

(** [symbol in point] holds for the key ['date'] of every point, and
    [point['date']] is the date string, unless a symbol called ["date"] had
    a value on that date and has taken the entry: with a weight keyed
    ["date"] the product [point[symbol] * (weight / total_weight)] is that
    of a string by a float, a TypeError. *)
Definition multiplies_date (weights : dict Q) (point : PricePoint) : bool :=
  dict_mem "date" weights && negb (dict_mem "date" (values point)).

(** A call of [calculate_composite]: the list it returns, or [None] when it
    raises. *)
Definition calculate_composite_call (data : list PricePoint) (weights : dict Q)
  : option (list PricePoint) :=
  if Qeq_bool (Num.sum (map snd weights)) 0 then Some data
  else if existsb (multiplies_date weights) data then None
  else Some (calculate_composite data weights).

(** ** Composite aggregator, in binary64 *)

Module Binary64.

Import PrimFloat FloatOps SpecFloat.

Local Open Scope float_scope.

(** What a data point holds under a key: the date string, or a number.  An
    [int] of Python (the [100] of [{"SPY": 100}]) is the float it becomes in
    the first product. *)
Inductive value : Type :=
| Str (s : string)
| Float (x : float).

(** [{'date': '2025-01-02', 'SPY': 100.0, ...}] *)
Definition Point : Type := dict value.

(** [sum(xs)] up to Python 3.11: the floats added to [0] from left to
    right. *)
Definition sum (xs : list float) : float := fold_left add xs 0.

(** [sum(xs)] from Python 3.12 on: the floats added from left to right,
    the rounding error of every addition collected in a compensation
    term, which is added at the end unless it is zero or not finite. *)
Definition compensated_sum (xs : list float) : float :=
  let fc :=
    fold_left
      (fun fc x =>
         let f := fst fc in
         let c := snd fc in
         let t := f + x in
         (t, if abs x <=? abs f then c + ((f - t) + x) else c + ((x - t) + f)))
      xs (0, 0) in
  let f := fst fc in
  let c := snd fc in
  if (c =? 0) || negb (is_finite c) then f else f + c.

(** [rint]: the nearest integer, ties to even, with the sign of the
    argument.  Below [2^52] in magnitude it is obtained by adding and
    subtracting [2^52]; from there on every float is an integer. *)
Definition rint (y : float) : float :=
  if abs y <? 0x1p52 then
    if y =? 0 then y
    else let r := (abs y + 0x1p52) - 0x1p52 in
         if y <? 0 then - r else r
  else y.

(** [round(x, 2)] for a [numpy.float64], as NumPy rounds:
    [rint(x * 100) / 100]. *)
Definition np_round2 (x : float) : float := rint (x * 100) / 100.

(** [round(x, 2)] for a [float], as Python rounds: the exact value of [x]
    is rounded to the nearest hundredth, ties to even, and the result is
    the float nearest to that decimal; a NaN or an infinity is returned as
    it is. *)
Definition py_round2 (x : float) : float :=
  match Prim2SF x with
  | S754_finite s m e =>
      if (0 <=? e)%Z then x
      else
        let num := (Z.pos m * 100)%Z in
        let den := (2 ^ (- e))%Z in
        let q := (num / den)%Z in
        let r := (num mod den)%Z in
        let n := match (2 * r ?= den)%Z with
                 | Lt => q
                 | Gt => (q + 1)%Z
                 | Eq => if Z.even q then q else (q + 1)%Z
                 end in
        match n with
        | Z.pos p =>
            SF2Prim (SFdiv prec emax (S754_finite s p 0) (S754_finite false 100 0))
        | _ => if s then - 0 else 0
        end
  | _ => x
  end.

Section Aggregator.

(** The two built-in functions the aggregator calls.  [sum(xs)] is [sum] or
    [compensated_sum], by the version of Python.  [round(composite, 2)] is
    [np_round2] when [composite] is a [numpy.float64], as it is for the
    values [fetch_equity_data] stores, and [py_round2] when it is a
    [float]. *)
Variable py_sum : list float -> float.
Variable round2 : float -> float.

(** The inner loop: [None] once a product has raised TypeError.  The
    [composite = 0] it starts from is an [int]: the first addition makes it
    a float, and without an addition [round(0, 2)] is [0] all the same. *)
Definition composite_of (point : Point) (weights : dict float) (total_weight : float)
  : option float :=
  fold_left
    (fun composite sw =>
       match composite with
       | None => None
       | Some c =>
           match dict_get (fst sw) point with
           | None => Some c
           | Some (Float v) => Some (c + v * (snd sw / total_weight))
           | Some (Str _) => None
           end
       end)
    weights (Some 0).

(** The outer loop. *)
Fixpoint composite_points (data : list Point) (weights : dict float)
    (total_weight : float) : option (list Point) :=
  match data with
  | [] => Some []
  | point :: rest =>
      match composite_of point weights total_weight with
      | None => None
      | Some composite =>
          match composite_points rest weights total_weight with
          | None => None
          | Some rest' =>
              Some (dict_set "Composite" (Float (round2 composite)) point :: rest')
          end
      end
  end.

Definition calculate_composite (data : list Point) (weights : dict float)
  : option (list Point) :=
  let total_weight := py_sum (map snd weights) in
  if total_weight =? 0 then Some data
  else composite_points data weights total_weight.

End Aggregator.

End Binary64.

(** ** Orchestration *)

Record Args : Type := mkArgs {
  arg_symbols : list string;
  arg_start : Date;
  arg_end : Date;
  arg_frequency : option string;
  arg_weights : option (list Q);
  arg_output : string
}.

(** [{s: 100/len(symbols) for s in symbols}], with the exact quotient: in
    binary64 the weights need not total 100. *)
Definition equal_weights (symbols : list string) : dict Q :=
  fold_left (fun d s => dict_set s (100 / inject_Z (Z.of_nat (length symbols)))%Q d)
            symbols [].

(** [dict(zip(symbols, weights))] *)
Definition zip_weights (symbols : list string) (ws : list Q) : dict Q :=
  fold_left (fun d sw => dict_set (fst sw) (snd sw) d) (combine symbols ws) [].

Definition choose_weights (args : Args) : IO (dict Q) :=
  match arg_weights args with
  | Some (w :: ws) =>
      if negb (Nat.eqb (length (w :: ws)) (length (arg_symbols args))) then
        print (MsgWeightsWarning (length (w :: ws)) (length (arg_symbols args))) ;;;
        ret (equal_weights (arg_symbols args))
      else ret (zip_weights (arg_symbols args) (w :: ws))
  | _ => ret (equal_weights (arg_symbols args))
  end.

Definition choose_frequency (args : Args) : IO string :=
  match arg_frequency args with
  | None =>
      f <- lift (calculate_optimal_frequency (arg_start args) (arg_end args) 100) ;;
      print (MsgAutoSelected f) ;;;
      ret f
  | Some f => print (MsgUsingSpecified f) ;;; ret f
  end.

Definition print_samples (data : list PricePoint) : IO unit :=
  match data with
  | [] => ret tt
  | first :: _ =>
      print MsgSampleFirstDay ;;;
      print (MsgPoint first) ;;;
      print MsgSampleLastDay ;;;
      print (MsgPoint (last data first))
  end.

(** [main], for the parsed command line [args] and the provider
    [yf_download], which maps symbols and a date range to the closing
    prices. *)
Definition main (yf_download : list string -> Date -> Date -> Closes)
    (args : Args) : IO unit :=
  frequency <- choose_frequency args ;;
  data <- fetch_equity_data
            (yf_download (arg_symbols args) (arg_start args) (arg_end args))
            (arg_symbols args) (arg_start args) (arg_end args) frequency ;;
  match data with
  | [] => print MsgNoData
  | _ :: _ =>
      weights <- choose_weights args ;;
      data <- lift (calculate_composite_call data weights) ;;
      write_json (arg_output args)
        (mkDocument (arg_symbols args) weights (arg_start args) (arg_end args) data) ;;;
      print (MsgSaved (arg_output args)) ;;;
      print (MsgCount (length data)) ;;;
      print (MsgSymbols (arg_symbols args)) ;;;
      print (MsgWeights weights) ;;;
      print_samples data
  end.

(** ** Notions of the specification *)

(** *** Frequency selector *)

(** The selector as the specification words it: the estimate is the floor
    of [days * 252 / 365]. *)
Definition select_frequency_spec
    (start_date end_date : Date) (max_samples : Z) : string :=
  let days := toordinal end_date - toordinal start_date in
  let estimated_trading_days := (days * 252) / 365 in
  if estimated_trading_days <=? max_samples then "daily"%string
  else if Qle_bool (inject_Z estimated_trading_days / 5) (inject_Z max_samples)
       then "weekly"%string
       else "monthly"%string.

(** *** Series *)

Definition date_lt (a b : Date) : Prop := date_compare a b = Lt.

Definition is_month_end (d : Date) : Prop :=
  day d = days_in_month (year d) (month d).

Definition valid_dates (data : list PricePoint) : Prop :=
  Forall (fun p => valid_date (date p) = true) data.

(** A series whose dates never go back. *)
Definition ascending (data : list PricePoint) : Prop :=
  StronglySorted (fun p q => date_ltb (date q) (date p) = false) data.

(** The points of a series in chronological order; points of one date keep
    their order. *)
Fixpoint insert_point (p : PricePoint) (l : list PricePoint) : list PricePoint :=
  match l with
  | [] => [p]
  | p' :: l' =>
      if date_ltb (date p) (date p') then p :: l
      else p' :: insert_point p l'
  end.

Definition chronological (data : list PricePoint) : list PricePoint :=
  fold_left (fun acc p => insert_point p acc) data [].

(** The first value a series has for a symbol. *)
Fixpoint first_value (symbol : string) (data : list PricePoint) : option Q :=
  match data with
  | [] => None
  | p :: rest =>
      match dict_get symbol (values p) with
      | Some v => Some v
      | None => first_value symbol rest
      end
  end.

(** *** Buckets *)

Definition bin_of_frequency (frequency : string) : Date -> Date :=
  if String.eqb frequency "weekly" then week_end else month_end.

(** The bucket of a label: the points whose date falls in the bin that the
    label ends, in chronological order. *)
Definition bucket (bin_of : Date -> Date) (L : Date) (data : list PricePoint)
  : list PricePoint :=
  filter (fun p => date_eqb (bin_of (date p)) L) (chronological data).

(** What a symbol is worth in a bucket: its last value that is not missing. *)
Definition last_value (symbol : string) (points : list PricePoint) : option Q :=
  last_valid (map (fun p => dict_get symbol (values p)) points).

Definition last_point (points : list PricePoint) : option PricePoint :=
  last (map Some points) None.

(** The last-row snapshot of the specification: every row of the output
    holds the values (rounded again) of the last point of its bucket, and
    nothing else. *)
Definition last_row_snapshot (bin_of : Date -> Date)
    (data out : list PricePoint) : Prop :=
  forall r p,
    In r out ->
    last_point (bucket bin_of (date r) data) = Some p ->
    forall symbol,
      dict_get symbol (values r)
      = option_map Num.round2 (dict_get symbol (values p)).

(** The rows [resample_data] builds from the frame of a series whose dates
    are all valid, for the bins of a rule. *)
Definition resampled_entries (bin_of : Date -> Date) (data : list PricePoint)
  : list PricePoint :=
  entries_of_frame
    (dropna_all
       (resample_last bin_of
          (mkFrame (columns_of_records data) (map row_of_record data)))).

(** *** Composite *)

(** The composite as the specification words it,
    [sum(point[s] * weights[s] / total for s in weights if s in point)],
    in exact arithmetic. *)
Definition composite_terms (point : PricePoint) (weights : dict Q) (total : Q) : list Q :=
  flat_map (fun sw => match dict_get (fst sw) (values point) with
                      | Some v => [(v * snd sw / total)%Q]
                      | None => []
                      end) weights.

Definition composite_spec (point : PricePoint) (weights : dict Q) : Q :=
  Num.sum (composite_terms point weights (Num.sum (map snd weights))).

(** The same formula evaluated in binary64 as it is written: the product
    first, then the quotient by the total, and the terms added by [sum]. *)
Definition claimed_terms (point : Binary64.Point) (weights : dict PrimFloat.float)
    (total : PrimFloat.float) : list PrimFloat.float :=
  flat_map (fun sw => match dict_get (fst sw) point with
                      | Some (Binary64.Float v) =>
                          [PrimFloat.div (PrimFloat.mul v (snd sw)) total]
                      | _ => []
                      end) weights.

Definition claimed_composite (py_sum : list PrimFloat.float -> PrimFloat.float)
    (point : Binary64.Point) (weights : dict PrimFloat.float) : PrimFloat.float :=
  py_sum (claimed_terms point weights (py_sum (map snd weights))).

(** The rational number a finite float is. *)
Definition exact_value (x : PrimFloat.float) : Q :=
  match FloatOps.Prim2SF x with
  | SpecFloat.S754_finite s m e =>
      let n := if s then Z.neg m else Z.pos m in
      if (0 <=? e)%Z then inject_Z (n * 2 ^ e) else n # Z.to_pos (2 ^ (- e))
  | _ => 0%Q
  end.

(** The formula of the specification in exact arithmetic, on the numbers
    that the floats of the point and of the weight map are. *)
Definition exact_composite (point : Binary64.Point) (weights : dict PrimFloat.float) : Q :=
  let total := Num.sum (map (fun sw => exact_value (snd sw)) weights) in
  Num.sum
    (flat_map (fun sw => match dict_get (fst sw) point with
                         | Some (Binary64.Float v) =>
                             [(exact_value v * exact_value (snd sw) / total)%Q]
                         | _ => []
                         end) weights).

(** The terms the code adds up, in the order of the weight map: the value
    of a weighted symbol multiplied by the share of its weight,
    [point[s] * (weights[s] / total)]. *)
Definition weighted_terms (point : Binary64.Point) (weights : dict PrimFloat.float)
    (total : PrimFloat.float) : list PrimFloat.float :=
  flat_map (fun sw => match dict_get (fst sw) point with
                      | Some (Binary64.Float v) =>
                          [PrimFloat.mul v (PrimFloat.div (snd sw) total)]
                      | _ => []
                      end) weights.

(** The terms added to zero one after the other, for the total that [sum]
    gives. *)
Definition weighted_sum (py_sum : list PrimFloat.float -> PrimFloat.float)
    (point : Binary64.Point) (weights : dict PrimFloat.float) : PrimFloat.float :=
  fold_left PrimFloat.add
    (weighted_terms point weights (py_sum (map snd weights))) 0%float.

(** Under every weighted symbol the point has a number, or nothing. *)
Definition numeric_at (weights : dict PrimFloat.float) (point : Binary64.Point) : bool :=
  forallb (fun s => match dict_get s point with
                    | Some (Binary64.Str _) => false
                    | _ => true
                    end) (keys weights).

(** *** Runs *)

(** A run that only printed. *)
Definition prints_only (evs : list event) : Prop :=
  Forall (fun e => exists m, e = Print m) evs.

(** *** Sample inputs *)

(** Monday 2025-03-31 and Tuesday 2025-04-01: one week, two months. *)
Definition two_months : list PricePoint :=
  [ mkPoint (mkDate 2025 3 31) [("SPY"%string, 100%Q)];
    mkPoint (mkDate 2025 4 1) [("SPY"%string, 101%Q)] ].

(** Monday 2025-01-06 and Tuesday 2025-01-07: the last point of the week
    lacks a symbol that the point before it has. *)
Definition gap_in_last_row : list PricePoint :=
  [ mkPoint (mkDate 2025 1 6) [("SPY"%string, 100%Q); ("QQQ"%string, 100%Q)];
    mkPoint (mkDate 2025 1 7) [("QQQ"%string, 102%Q)] ].

(** Closing prices of two symbols, the first of which has no price on the
    first trading day of the range (it was listed a day later). *)
Definition late_listing : Closes :=
  CloseFrame
    (mkFrame ["NEW"%string; "SPY"%string]
       [ row_of_record (mkPoint (mkDate 2025 1 2) [("SPY"%string, 500%Q)]);
         row_of_record (mkPoint (mkDate 2025 1 3)
                                [("NEW"%string, 20%Q); ("SPY"%string, 505%Q)]) ]).

(** A provider that has no data. *)
Definition no_data (symbols : list string) (start_date end_date : Date) : Closes :=
  CloseFrame (mkFrame [] []).

#[local] Set Warnings "-inexact-float".

(** The point of the specification's example, and its weights. *)
Definition example_point : Binary64.Point :=
  [ ("date"%string, Binary64.Str "2025-01-02");
    ("SPY"%string, Binary64.Float 100%float);
    ("QQQ"%string, Binary64.Float 102%float) ].

Definition example_weights : dict PrimFloat.float :=
  [ ("SPY"%string, 50%float); ("QQQ"%string, 50%float) ].

(** A point whose weighted mean, 154.455, lies halfway between two
    hundredths, and its weights. *)
Definition halfway_point : Binary64.Point :=
  [ ("date"%string, Binary64.Str "2025-01-02");
    ("SPY"%string, Binary64.Float 136.02%float);
    ("QQQ"%string, Binary64.Float 197.47%float) ].

Definition halfway_weights : dict PrimFloat.float :=
  [ ("SPY"%string, 70%float); ("QQQ"%string, 30%float) ].

(** The same point and weights as exact decimals. *)
Definition halfway_point_exact : PricePoint :=
  mkPoint (mkDate 2025 1 2)
    [ ("SPY"%string, (13602 # 100)%Q); ("QQQ"%string, (19747 # 100)%Q) ].

Definition halfway_weights_exact : dict Q :=
  [ ("SPY"%string, 70%Q); ("QQQ"%string, 30%Q) ].

(** *** Further notions *)

(** The frequencies, from the finest to the coarsest. *)
Definition frequency_rank (frequency : string) : nat :=
  if String.eqb frequency "daily" then 0
  else if String.eqb frequency "weekly" then 1
  else 2.

(** A point in which a symbol that it lacks is given the value zero. *)
Definition fill_missing (symbol : string) (point : PricePoint) : PricePoint :=
  if dict_mem symbol (values point) then point else point_set symbol 0%Q point.

Definition composite_field (point : PricePoint) : option Q :=
  dict_get "Composite" (values point).

Definition is_write (e : event) : bool :=
  match e with WriteJson _ _ => true | Print _ => false end.

(** The series the normalizer assigns for a symbol: its closes that are not
    missing, each divided by the first of them and multiplied by 100. *)
Definition rebased (close_prices : DataFrame) (symbol : string) : Series :=
  match dropna (column close_prices symbol) with
  | [] => []
  | (_, start_price) :: _ =>
      map (fun dv => (fst dv,
                      match np_div (snd dv) start_price with
                      | Some q => Some (q * 100)%Q
                      | None => None
                      end))
          (dropna (column close_prices symbol))
  end.

(** The symbol has a column in the table, with a close that is not
    missing. *)
Definition has_data (close_prices : DataFrame) (symbol : string) : bool :=
  mem_string symbol (columns close_prices) &&
  match dropna (column close_prices symbol) with [] => false | _ :: _ => true end.


(** No close of the table is zero. *)
Definition nonzero_closes (close_prices : DataFrame) : Prop :=
  forall r c x, In r (rows close_prices) -> cell r c = Some x -> ~ (x == 0)%Q.

(** One turn of the loop that fills [normalized]. *)
Definition normalize_step (close_prices : DataFrame) (normalized : DataFrame)
    (symbol : string) : DataFrame :=
  if has_data close_prices symbol
  then set_column normalized symbol (rebased close_prices symbol)
  else normalized.


(** Every value of the frame is a value of the series assigned for its
    column, at the date of its row, and the column is one of the symbols
    seen. *)
Definition sound_frame (close_prices : DataFrame) (df : DataFrame) : Prop :=
  forall r c x, In r (rows df) -> cell r c = Some x ->
                In (label_of r, Some x) (rebased close_prices c).

(** The table of [late_listing]. *)
Definition late_listing_table : DataFrame :=
  mkFrame ["NEW"%string; "SPY"%string]
    [ row_of_record (mkPoint (mkDate 2025 1 2) [("SPY"%string, 500%Q)]);
      row_of_record (mkPoint (mkDate 2025 1 3)
                             [("NEW"%string, 20%Q); ("SPY"%string, 505%Q)]) ].

(** * Properties *)

(** ** Numbers *)

Section NumFacts.

Lemma round_half_even_comp (x y : Q) :
  (x == y)%Q -> Num.round_half_even x = Num.round_half_even y.
Proof.
  intros H. unfold Num.round_half_even.
  rewrite (Qfloor_comp _ _ H).
  assert (Hc : (x - inject_Z (Qfloor y) ?= 1 # 2)%Q = (y - inject_Z (Qfloor y) ?= 1 # 2)%Q)
    by (apply Qcompare_comp; [rewrite H|]; reflexivity).
  rewrite Hc. reflexivity.
Qed.

Lemma round2_comp (x y : Q) : (x == y)%Q -> Num.round2 x = Num.round2 y.
Proof.
  intros H. unfold Num.round2.
  rewrite (round_half_even_comp (x * 100) (y * 100)); [reflexivity|].
  rewrite H. reflexivity.
Qed.

Lemma sum_from (xs : list Q) (a : Q) :
  (fold_left Qplus xs a == a + Num.sum xs)%Q.
Proof.
  unfold Num.sum. revert a.
  induction xs as [|x xs IH]; intros a; simpl.
  - ring.
  - rewrite IH, (IH (0 + x)%Q). ring.
Qed.

End NumFacts.

(** ** Calendar *)

Section CalendarFacts.

Lemma valid_date_bounds d :
  valid_date d = true ->
  1 <= year d <= 9999 /\ 1 <= month d <= 12 /\
  1 <= day d <= days_in_month (year d) (month d).
Proof.
  unfold valid_date. rewrite !andb_true_iff, !Z.leb_le. lia.
Qed.

Lemma month_cases m :
  1 <= m <= 12 ->
  m = 1 \/ m = 2 \/ m = 3 \/ m = 4 \/ m = 5 \/ m = 6 \/
  m = 7 \/ m = 8 \/ m = 9 \/ m = 10 \/ m = 11 \/ m = 12.
Proof. lia. Qed.

Ltac each_month m H :=
  destruct (month_cases m H) as
    [->|[->|[->|[->|[->|[->|[->|[->|[->|[->|[->| ->]]]]]]]]]]].

Lemma days_before_year_succ y :
  days_before_year (y + 1) = days_before_year y + (if is_leap y then 366 else 365).
Proof.
  unfold days_before_year, is_leap.
  replace (y + 1 - 1) with y by lia.
  destruct (y mod 4 =? 0) eqn:E4; destruct (y mod 100 =? 0) eqn:E100;
    destruct (y mod 400 =? 0) eqn:E400; simpl;
    rewrite ?Z.eqb_eq, ?Z.eqb_neq in *; Z.to_euclidean_division_equations; lia.
Qed.

Lemma days_before_year_mono y1 y2 :
  y1 <= y2 -> days_before_year y1 <= days_before_year y2.
Proof.
  unfold days_before_year. intros. Z.to_euclidean_division_equations. lia.
Qed.

Lemma day_of_year_bounds y m d :
  1 <= m <= 12 -> 1 <= d <= days_in_month y m ->
  1 <= days_before_month y m + d <= (if is_leap y then 366 else 365).
Proof.
  intros Hm Hd. unfold days_before_month.
  each_month m Hm; cbn -[Z.add] in *; destruct (is_leap y); cbn -[Z.add] in *; lia.
Qed.

Lemma days_before_month_next y m :
  1 <= m < 12 ->
  days_before_month y (m + 1) = days_before_month y m + days_in_month y m.
Proof.
  intros Hm.
  assert (Hm' : 1 <= m <= 12) by lia.
  each_month m Hm'; try lia;
    unfold days_before_month, days_in_month; destruct (is_leap y); reflexivity.
Qed.

Lemma days_before_month_mono y m1 m2 :
  1 <= m1 -> m1 < m2 -> m2 <= 12 ->
  days_before_month y m1 + days_in_month y m1 <= days_before_month y m2.
Proof.
  intros H1 H12 H2. unfold days_before_month.
  assert (Hm1 : 1 <= m1 <= 12) by lia.
  assert (Hm2 : 1 <= m2 <= 12) by lia.
  each_month m1 Hm1; each_month m2 Hm2; try lia;
    cbn -[Z.add]; destruct (is_leap y); cbn -[Z.add]; lia.
Qed.

Lemma date_compare_lt a b :
  date_compare a b = Lt <->
  year a < year b \/
  (year a = year b /\ (month a < month b \/ (month a = month b /\ day a < day b))).
Proof.
  unfold date_compare.
  destruct (Z.compare_spec (year a) (year b));
    destruct (Z.compare_spec (month a) (month b));
    destruct (Z.compare_spec (day a) (day b));
    split; intros; try discriminate; try reflexivity; try lia.
Qed.

(** The ordinal grows with the date. *)
Lemma toordinal_lt a b :
  valid_date a = true -> valid_date b = true ->
  date_compare a b = Lt -> toordinal a < toordinal b.
Proof.
  intros Ha Hb Hlt.
  apply valid_date_bounds in Ha, Hb.
  destruct Ha as (Hya & Hma & Hda), Hb as (Hyb & Hmb & Hdb).
  apply date_compare_lt in Hlt. unfold toordinal.
  pose proof (day_of_year_bounds _ _ _ Hma Hda) as Ba.
  pose proof (day_of_year_bounds _ _ _ Hmb Hdb) as Bb.
  destruct Hlt as [Hy | [Hy [Hm | [Hm Hd]]]].
  - pose proof (days_before_year_succ (year a)) as Hs.
    pose proof (days_before_year_mono (year a + 1) (year b)) as Hmono.
    lia.
  - rewrite Hy in *.
    pose proof (days_before_month_mono (year b) (month a) (month b)).
    lia.
  - rewrite Hy, Hm. lia.
Qed.

End CalendarFacts.

(** ** Frequency selector *)

Section FrequencySelector.

Lemma truncated_estimate_nonneg (n : Z) :
  0 <= n -> Num.int_of_quotient (n * 252) 365 = (n * 252) / 365.
Proof.
  intros H. unfold Num.int_of_quotient. apply Z.quot_div_nonneg; lia.
Qed.

Lemma truncated_estimate_neg (n : Z) :
  n <= 0 -> Num.int_of_quotient (n * 252) 365 <= 0 /\ (n * 252) / 365 <= 0.
Proof.
  intros H. unfold Num.int_of_quotient. split.
  - apply Z.quot_le_upper_bound; lia.
  - Z.to_euclidean_division_equations. lia.
Qed.

(** C4. For every pair of dates, with [max_samples = 100], the selector
    returns what the rule of the specification gives: with the estimate
    [floor(days * 252 / 365)], ['daily'] if the estimate is at most 100,
    otherwise ['weekly'] if a fifth of it is at most 100, otherwise
    ['monthly']. *)
Theorem calculate_optimal_frequency_spec (start_date end_date : Date) :
  valid_date start_date = true ->
  valid_date end_date = true ->
  calculate_optimal_frequency start_date end_date 100
  = Some (select_frequency_spec start_date end_date 100).
Proof.
  intros Hs He.
  unfold calculate_optimal_frequency, select_frequency_spec, to_datetime, days_between.
  rewrite Hs, He.
  set (days := toordinal end_date - toordinal start_date).
  destruct (Z_le_gt_dec 0 days) as [Hpos | Hneg].
  - rewrite (truncated_estimate_nonneg days Hpos).
    destruct (_ <=? 100); [reflexivity|].
    destruct (Qle_bool _ _); reflexivity.
  - destruct (truncated_estimate_neg days) as [Hq Hd]; [lia|].
    assert (Hq' : (Num.int_of_quotient (days * 252) 365 <=? 100) = true)
      by (apply Z.leb_le; lia).
    assert (Hd' : (days * 252 / 365 <=? 100) = true) by (apply Z.leb_le; lia).
    rewrite Hq', Hd'. reflexivity.
Qed.

(** The two ranges the specification gives as examples. *)
Lemma calculate_optimal_frequency_examples :
  calculate_optimal_frequency (mkDate 2025 1 1) (mkDate 2025 1 31) 100
    = Some "daily"%string /\
  calculate_optimal_frequency (mkDate 2015 1 1) (mkDate 2025 1 1) 100
    = Some "monthly"%string.
Proof.
  split.
  - exact (calculate_optimal_frequency_spec
             (mkDate 2025 1 1) (mkDate 2025 1 31) eq_refl eq_refl).
  - exact (calculate_optimal_frequency_spec
             (mkDate 2015 1 1) (mkDate 2025 1 1) eq_refl eq_refl).
Defined.

(** C8. When the end date is before the start date, the selector returns
    ['daily']: it raises nothing, the day count is negative and passes the
    first test. *)
Theorem reversed_range_is_daily (start_date end_date : Date) :
  valid_date start_date = true ->
  valid_date end_date = true ->
  date_ltb end_date start_date = true ->
  calculate_optimal_frequency start_date end_date 100 = Some "daily"%string.
Proof.
  intros Hs He Hlt.
  assert (Hord : toordinal end_date < toordinal start_date).
  { apply toordinal_lt; trivial.
    unfold date_ltb in Hlt. destruct (date_compare end_date start_date);
      trivial; discriminate. }
  unfold calculate_optimal_frequency, to_datetime, days_between.
  rewrite Hs, He.
  destruct (truncated_estimate_neg (toordinal end_date - toordinal start_date))
    as [Hq _]; [lia|].
  assert (Hq' : (Num.int_of_quotient
                   ((toordinal end_date - toordinal start_date) * 252) 365
                 <=? 100) = true) by (apply Z.leb_le; lia).
  rewrite Hq'. reflexivity.
Qed.

Lemma reversed_range_example :
  calculate_optimal_frequency (mkDate 2025 1 31) (mkDate 2025 1 1) 100
    = Some "daily"%string.
Proof.
  exact (reversed_range_is_daily (mkDate 2025 1 31) (mkDate 2025 1 1)
           eq_refl eq_refl eq_refl).
Defined.

End FrequencySelector.

(** The bins of the two rules. *)

Section BinEnds.

Lemma days_in_month_bounds y m : 28 <= days_in_month y m <= 31.
Proof.
  unfold days_in_month.
  repeat match goal with
         | |- context [match ?x with _ => _ end] => destruct x
         end; lia.
Qed.

Lemma next_day_well_formed d :
  1 <= month d <= 12 -> 1 <= day d <= days_in_month (year d) (month d) ->
  1 <= month (next_day d) <= 12 /\
  1 <= day (next_day d) <= days_in_month (year (next_day d)) (month (next_day d)).
Proof.
  intros Hm Hd. unfold next_day.
  destruct (day d <? days_in_month (year d) (month d)) eqn:E; simpl.
  - apply Z.ltb_lt in E. lia.
  - destruct (month d <? 12) eqn:E12; simpl.
    + apply Z.ltb_lt in E12.
      pose proof (days_in_month_bounds (year d) (month d + 1)). lia.
    + pose proof (days_in_month_bounds (year d + 1) 1). lia.
Qed.

Lemma toordinal_next_day d :
  1 <= month d <= 12 -> 1 <= day d <= days_in_month (year d) (month d) ->
  toordinal (next_day d) = toordinal d + 1.
Proof.
  intros Hm Hd. unfold next_day, toordinal.
  destruct (day d <? days_in_month (year d) (month d)) eqn:E; simpl.
  - lia.
  - apply Z.ltb_ge in E.
    destruct (month d <? 12) eqn:E12; simpl.
    + apply Z.ltb_lt in E12.
      rewrite days_before_month_next by lia. lia.
    + apply Z.ltb_ge in E12.
      assert (Hm12 : month d = 12) by lia.
      rewrite days_before_year_succ, Hm12 in *.
      unfold days_before_month, days_in_month in *.
      destruct (is_leap (year d)); simpl in *; lia.
Qed.

Lemma toordinal_add_days n : forall d,
  1 <= month d <= 12 -> 1 <= day d <= days_in_month (year d) (month d) ->
  toordinal (add_days d n) = toordinal d + Z.of_nat n.
Proof.
  induction n as [|n IH]; intros d Hm Hd.
  - simpl. lia.
  - cbn [add_days].
    destruct (next_day_well_formed d Hm Hd) as [Hm' Hd'].
    rewrite (IH _ Hm' Hd'), (toordinal_next_day d Hm Hd). lia.
Qed.

(** The label of the weekly bin of a date is the first Sunday that is not
    before it. *)
Lemma week_end_next_sunday d :
  valid_date d = true ->
  weekday (week_end d) = 6 /\
  0 <= toordinal (week_end d) - toordinal d <= 6.
Proof.
  intros Hv. apply valid_date_bounds in Hv. destruct Hv as (_ & Hm & Hd).
  assert (Hw : 0 <= weekday d < 7) by (apply Z.mod_pos_bound; lia).
  assert (E : toordinal (week_end d) = toordinal d + (6 - weekday d)).
  { unfold week_end. rewrite (toordinal_add_days _ d Hm Hd), Z2Nat.id; lia. }
  split; [|lia].
  unfold weekday in *. rewrite E.
  Z.to_euclidean_division_equations. lia.
Qed.

(** The label of the monthly bin of a date is a date of the same month that
    is not before it. *)
Lemma month_end_same_month d :
  valid_date d = true ->
  valid_date (month_end d) = true /\
  year (month_end d) = year d /\ month (month_end d) = month d /\
  day d <= day (month_end d).
Proof.
  intros Hv. pose proof (valid_date_bounds d Hv) as (Hy & Hm & Hd).
  pose proof (days_in_month_bounds (year d) (month d)).
  split; [|cbn [month_end year month day]; lia].
  unfold month_end, valid_date. cbn [year month day].
  rewrite !andb_true_iff, !Z.leb_le. lia.
Qed.

End BinEnds.

(** ** Dicts *)

Section DictFacts.

Context {V : Type}.

Lemma dict_get_set_same (k : string) (v : V) (d : dict V) :
  dict_get k (dict_set k v d) = Some v.
Proof.
  induction d as [|[k' v'] d IH]; simpl.
  - rewrite String.eqb_refl. reflexivity.
  - destruct (String.eqb k k') eqn:E; simpl; rewrite E; [reflexivity | exact IH].
Qed.

Lemma dict_get_set_other (k k0 : string) (v : V) (d : dict V) :
  k0 <> k -> dict_get k0 (dict_set k v d) = dict_get k0 d.
Proof.
  intros Hne. induction d as [|[k' v'] d IH]; simpl.
  - apply String.eqb_neq in Hne. rewrite Hne. reflexivity.
  - destruct (String.eqb k k') eqn:E; simpl.
    + apply String.eqb_eq in E. subst k'.
      apply String.eqb_neq in Hne. rewrite Hne. reflexivity.
    + rewrite IH. reflexivity.
Qed.

Lemma dict_get_none_not_key (k : string) (d : dict V) :
  dict_get k d = None <-> ~ In k (keys d).
Proof.
  induction d as [|[k' v'] d IH]; simpl.
  - tauto.
  - destruct (String.eqb k k') eqn:E.
    + apply String.eqb_eq in E. subst. split; [discriminate | tauto].
    + apply String.eqb_neq in E. rewrite IH. split; [intros H [?|?]|]; try tauto.
      congruence.
Qed.

End DictFacts.

(** ** Composite aggregator *)

Section Composite.



(** Without a weight keyed ["date"] no product is that of a string. *)
Lemma multiplies_date_never (weights : dict Q) (data : list PricePoint) :
  ~ In "date"%string (keys weights) ->
  existsb (multiplies_date weights) data = false.
Proof.
  intros H. apply (proj2 (dict_get_none_not_key _ _)) in H.
  induction data as [|point data IH]; [reflexivity|].
  cbn [existsb]. rewrite IH.
  unfold multiplies_date, dict_mem. rewrite H. reflexivity.
Qed.

Lemma calculate_composite_call_returns (data : list PricePoint) (weights : dict Q) :
  ~ In "date"%string (keys weights) ->
  calculate_composite_call data weights = Some (calculate_composite data weights).
Proof.
  intros H. unfold calculate_composite_call, calculate_composite.
  destruct (Qeq_bool _ 0); [reflexivity|].
  rewrite (multiplies_date_never weights data H). reflexivity.
Qed.

(** C3. When the weights sum to zero the result is the input itself: no
    point gains a ["Composite"] field and no field changes. *)
Theorem calculate_composite_zero_total (data : list PricePoint) (weights : dict Q) :
  (Num.sum (map snd weights) == 0)%Q ->
  calculate_composite data weights = data.
Proof.
  intros H. unfold calculate_composite.
  apply Qeq_bool_iff in H. rewrite H. reflexivity.
Qed.

Lemma calculate_composite_zero_total_example :
  calculate_composite
    [mkPoint (mkDate 2025 1 2) [("SPY"%string, 100%Q); ("QQQ"%string, 102%Q)]]
    [("SPY"%string, 0%Q); ("QQQ"%string, 0%Q)]
  = [mkPoint (mkDate 2025 1 2) [("SPY"%string, 100%Q); ("QQQ"%string, 102%Q)]]
  /\ dict_get "Composite"
       (values (mkPoint (mkDate 2025 1 2) [("SPY"%string, 100%Q); ("QQQ"%string, 102%Q)]))
     = None.
Proof.
  split.
  - exact (calculate_composite_zero_total
             [mkPoint (mkDate 2025 1 2) [("SPY"%string, 100%Q); ("QQQ"%string, 102%Q)]]
             [("SPY"%string, 0%Q); ("QQQ"%string, 0%Q)] eq_refl).
  - reflexivity.
Defined.



End Composite.

(** ** Composite aggregator, in binary64 *)

Section CompositeBinary64.

Variable py_sum : list float -> float.
Variable round2 : float -> float.

Lemma composite_of_numeric_from (point : Binary64.Point) (weights : dict float)
    (total : float) :
  numeric_at weights point = true ->
  forall a,
    fold_left
      (fun composite sw =>
         match composite with
         | None => None
         | Some c =>
             match dict_get (fst sw) point with
             | None => Some c
             | Some (Binary64.Float v) => Some (c + v * (snd sw / total))%float
             | Some (Binary64.Str _) => None
             end
         end) weights (Some a)
    = Some (fold_left PrimFloat.add (weighted_terms point weights total) a).
Proof.
  unfold numeric_at.
  induction weights as [|[s w] weights IH]; intros H a; [reflexivity|].
  cbn [keys map fst forallb] in H. apply andb_true_iff in H. destruct H as [Hs H].
  cbn [fold_left fst snd weighted_terms flat_map].
  destruct (dict_get s point) as [[t|v]|].
  - discriminate Hs.
  - cbn [app fold_left]. apply IH. exact H.
  - cbn [app]. apply IH. exact H.
Qed.

(** The loop of the code computes the sum of its terms. *)
Lemma composite_of_numeric (point : Binary64.Point) (weights : dict float) :
  numeric_at weights point = true ->
  Binary64.composite_of point weights (py_sum (map snd weights))
  = Some (weighted_sum py_sum point weights).
Proof.
  intros H. unfold Binary64.composite_of, weighted_sum.
  apply composite_of_numeric_from. exact H.
Qed.

Lemma composite_points_numeric (data : list Binary64.Point) (weights : dict float) :
  forallb (numeric_at weights) data = true ->
  Binary64.composite_points round2 data weights (py_sum (map snd weights))
  = Some (map (fun point =>
                 dict_set "Composite"
                   (Binary64.Float (round2 (weighted_sum py_sum point weights))) point)
              data).
Proof.
  induction data as [|point data IH]; intros H; [reflexivity|].
  cbn [forallb] in H. apply andb_true_iff in H. destruct H as [Hp H].
  cbn [Binary64.composite_points map].
  rewrite (composite_of_numeric point weights Hp), (IH H). reflexivity.
Qed.

(** C2. With a total weight other than zero, and numbers under the
    weighted symbols, the call returns a series of the same length, and the
    point at every position of it is the point of the input at that
    position with one field written, ["Composite"]: its value is the sum,
    added up from zero in the order of the weight map, of
    [point[symbol] * (weights[symbol] / total)] over the symbols of the
    weight map the point has, each operation in binary64, rounded to two
    decimals.  The other fields, the date among them, are as they were. *)
Theorem calculate_composite_spec
    (data : list Binary64.Point) (weights : dict float)
    (i : nat) (point : Binary64.Point) :
  (py_sum (map snd weights) =? 0)%float = false ->
  forallb (numeric_at weights) data = true ->
  nth_error data i = Some point ->
  exists data' point',
    Binary64.calculate_composite py_sum round2 data weights = Some data' /\
    length data' = length data /\
    nth_error data' i = Some point' /\
    dict_get "Composite" point'
      = Some (Binary64.Float (round2 (weighted_sum py_sum point weights))) /\
    forall k, k <> "Composite"%string -> dict_get k point' = dict_get k point.
Proof.
  intros Htotal Hnum Hi.
  unfold Binary64.calculate_composite. rewrite Htotal.
  rewrite (composite_points_numeric data weights Hnum).
  eexists. eexists. split; [reflexivity|].
  split; [apply length_map|].
  split; [apply map_nth_error; exact Hi|].
  split.
  - apply dict_get_set_same.
  - intros k Hk. apply dict_get_set_other. exact Hk.
Qed.

End CompositeBinary64.

(** The example of the specification: SPY 100 and QQQ 102, weighted 50 and
    50, give the composite 101.00, as Python rounds and as NumPy rounds,
    with the one [sum] and with the other. *)
Lemma calculate_composite_example :
  (exists data' point',
     Binary64.calculate_composite Binary64.sum Binary64.py_round2
       [example_point] example_weights
     = Some data' /\
     length data' = 1%nat /\
     nth_error data' 0 = Some point' /\
     dict_get "Composite" point'
       = Some (Binary64.Float
                 (Binary64.py_round2
                    (weighted_sum Binary64.sum example_point example_weights))) /\
     forall k, k <> "Composite"%string ->
               dict_get k point' = dict_get k example_point) /\
  Binary64.py_round2 (weighted_sum Binary64.sum example_point example_weights)
  = 101%float /\
  Binary64.np_round2 (weighted_sum Binary64.sum example_point example_weights)
  = 101%float /\
  Binary64.py_round2
    (weighted_sum Binary64.compensated_sum example_point example_weights)
  = 101%float /\
  Binary64.np_round2
    (weighted_sum Binary64.compensated_sum example_point example_weights)
  = 101%float.
Proof.
  split; [|repeat split; vm_compute; reflexivity].
  exact (calculate_composite_spec Binary64.sum Binary64.py_round2
           [example_point] example_weights
           0 example_point eq_refl eq_refl eq_refl).
Defined.

(** C2 as the specification states it fails on the code.  SPY 136.02 and
    QQQ 197.47, weighted 70 and 30: the weighted mean of the two decimals
    is 154.455, halfway between two hundredths.  The code adds
    [136.02 * 0.7] and [197.47 * 0.3] in binary64, falls below the half
    and stores 154.45, as Python rounds and as NumPy rounds.  The formula
    of the specification, [sum(v * w / total)], gives 154.46: evaluated in
    binary64 as it is written, in exact arithmetic on the two floats, and
    in exact arithmetic on the two decimals. *)
Theorem calculate_composite_not_claimed_sum :
  (forall py_sum round2,
     In py_sum [Binary64.sum; Binary64.compensated_sum] ->
     In round2 [Binary64.py_round2; Binary64.np_round2] ->
     Binary64.calculate_composite py_sum round2 [halfway_point] halfway_weights
     = Some [halfway_point ++ [("Composite"%string, Binary64.Float 154.45%float)]] /\
     round2 (claimed_composite py_sum halfway_point halfway_weights) = 154.46%float) /\
  (Num.round2 (exact_composite halfway_point halfway_weights) == 15446 # 100)%Q /\
  (Num.round2 (composite_spec halfway_point_exact halfway_weights_exact)
   == 15446 # 100)%Q.
Proof.
  split; [|split; vm_compute; reflexivity].
  intros py_sum round2 [<- | [<- | []]] [<- | [<- | []]];
    split; vm_compute; reflexivity.
Qed.

(** ** Resampler *)

Section DateOrder.

Lemma date_compare_eq a b : date_compare a b = Eq <-> a = b.
Proof.
  destruct a as [ya ma da], b as [yb mb db]. unfold date_compare. simpl.
  destruct (Z.compare_spec ya yb); destruct (Z.compare_spec ma mb);
    destruct (Z.compare_spec da db);
    split; intros H'; try discriminate; try reflexivity;
    try (injection H' as ? ? ?; lia); subst; reflexivity.
Qed.

Lemma date_compare_gt a b : date_compare a b = Gt <-> date_compare b a = Lt.
Proof.
  unfold date_compare.
  rewrite (Z.compare_antisym (year a) (year b)),
          (Z.compare_antisym (month a) (month b)),
          (Z.compare_antisym (day a) (day b)).
  destruct (year a ?= year b); destruct (month a ?= month b);
    destruct (day a ?= day b); simpl; split; intros; congruence.
Qed.

Lemma date_lt_trans a b c : date_lt a b -> date_lt b c -> date_lt a c.
Proof. unfold date_lt. rewrite !date_compare_lt. lia. Qed.

Lemma date_lt_irrefl a : ~ date_lt a a.
Proof. unfold date_lt. rewrite date_compare_lt. lia. Qed.

Lemma date_eqb_eq a b : date_eqb a b = true <-> a = b.
Proof.
  unfold date_eqb. rewrite <- date_compare_eq.
  destruct (date_compare a b); split; intros; congruence.
Qed.

End DateOrder.

Section ListFacts.

Context {A : Type}.

Lemma filter_length_le (f : A -> bool) (l : list A) :
  (length (filter f l) <= length l)%nat.
Proof.
  induction l as [|a l IH]; simpl; [lia|].
  destruct (f a); simpl; lia.
Qed.

Lemma StronglySorted_map_filter {B : Type} (R : B -> B -> Prop) (g : A -> B)
    (f : A -> bool) (l : list A) :
  StronglySorted R (map g l) -> StronglySorted R (map g (filter f l)).
Proof.
  induction l as [|a l IH]; simpl; intros H; [constructor|].
  apply StronglySorted_inv in H. destruct H as [Hs Hall].
  destruct (f a); simpl; [|apply IH; exact Hs].
  constructor; [apply IH; exact Hs|].
  rewrite Forall_forall in *. intros b Hb.
  apply Hall. apply in_map_iff in Hb. destruct Hb as (x & <- & Hx).
  apply in_map. apply filter_In in Hx. tauto.
Qed.

End ListFacts.

Section Bins.

Variable bin_of : Date -> Date.

Lemma insert_label_In (L L' : Date) (l : list Date) :
  In L' (insert_label L l) <-> L' = L \/ In L' l.
Proof.
  induction l as [|x l IH]; simpl.
  - intuition congruence.
  - destruct (date_compare L x) eqn:E; simpl.
    + apply date_compare_eq in E. subst. intuition congruence.
    + intuition congruence.
    + rewrite IH. intuition congruence.
Qed.

Lemma insert_label_sorted (L : Date) (l : list Date) :
  StronglySorted date_lt l -> StronglySorted date_lt (insert_label L l).
Proof.
  induction l as [|x l IH]; simpl; intros H.
  - repeat constructor.
  - apply StronglySorted_inv in H. destruct H as [Hs Hall].
    destruct (date_compare L x) eqn:E.
    + constructor; assumption.
    + constructor; [constructor; assumption|].
      constructor; [exact E|].
      rewrite Forall_forall in *. intros y Hy.
      apply date_lt_trans with x; [exact E | apply Hall; exact Hy].
    + constructor; [apply IH; exact Hs|].
      rewrite Forall_forall in *. intros y Hy.
      apply insert_label_In in Hy. destruct Hy as [-> | Hy].
      * apply date_compare_gt. exact E.
      * apply Hall. exact Hy.
Qed.

Lemma insert_label_length (L : Date) (l : list Date) :
  (length (insert_label L l) <= S (length l))%nat.
Proof.
  induction l as [|x l IH]; simpl; [lia|].
  destruct (date_compare L x); simpl; lia.
Qed.

Lemma bin_labels_sorted (l : list Row) :
  StronglySorted date_lt (bin_labels bin_of l).
Proof.
  induction l as [|r l IH]; simpl; [constructor|].
  apply insert_label_sorted. exact IH.
Qed.

Lemma bin_labels_In (L : Date) (l : list Row) :
  In L (bin_labels bin_of l) <-> exists r, In r l /\ L = bin_of (label_of r).
Proof.
  induction l as [|r l IH]; simpl.
  - split; [tauto | intros (r & [] & _)].
  - rewrite insert_label_In, IH. split.
    + intros [-> | (r' & Hr' & ->)]; eauto.
    + intros (r' & [<- | Hr'] & ->); eauto.
Qed.

Lemma bin_labels_length (l : list Row) :
  (length (bin_labels bin_of l) <= length l)%nat.
Proof.
  induction l as [|r l IH]; simpl; [lia|].
  pose proof (insert_label_length (bin_of (label_of r)) (bin_labels bin_of l)).
  lia.
Qed.

End Bins.

Section Frames.

Lemma to_datetime_all_valid (data : list PricePoint) :
  valid_dates data -> to_datetime_all data = Some data.
Proof.
  induction 1 as [|p data Hp _ IH]; simpl; [reflexivity|].
  unfold to_datetime. rewrite Hp, IH. destruct p; reflexivity.
Qed.

Lemma frame_of_records_valid (data : list PricePoint) :
  valid_dates data ->
  frame_of_records data
  = Some (mkFrame (columns_of_records data) (map row_of_record data)).
Proof.
  intros H. unfold frame_of_records. rewrite (to_datetime_all_valid data H).
  reflexivity.
Qed.

Lemma insert_row_map (p : PricePoint) (l : list PricePoint) :
  insert_row (row_of_record p) (map row_of_record l)
  = map row_of_record (insert_point p l).
Proof.
  induction l as [|q l IH]; simpl; [reflexivity|].
  destruct (date_ltb (date p) (date q)); simpl; [reflexivity|].
  rewrite IH. reflexivity.
Qed.

Lemma sort_index_map (data : list PricePoint) :
  sort_index (map row_of_record data) = map row_of_record (chronological data).
Proof.
  unfold sort_index, chronological.
  change (@nil Row) with (map row_of_record []).
  generalize (@nil PricePoint) as acc.
  induction data as [|p data IH]; intros acc; simpl; [reflexivity|].
  rewrite insert_row_map. apply IH.
Qed.

Lemma insert_point_In (p q : PricePoint) (l : list PricePoint) :
  In q (insert_point p l) <-> q = p \/ In q l.
Proof.
  induction l as [|x l IH]; simpl.
  - intuition congruence.
  - destruct (date_ltb (date p) (date x)); simpl; [|rewrite IH];
      intuition congruence.
Qed.

Lemma chronological_In (q : PricePoint) (data : list PricePoint) :
  In q (chronological data) <-> In q data.
Proof.
  unfold chronological.
  assert (G : forall acc, In q (fold_left (fun acc p => insert_point p acc) data acc)
                          <-> In q data \/ In q acc).
  { induction data as [|p data IH]; intros acc; simpl; [tauto|].
    rewrite IH, insert_point_In. intuition congruence. }
  rewrite G. simpl. tauto.
Qed.

Lemma insert_point_length (p : PricePoint) (l : list PricePoint) :
  length (insert_point p l) = S (length l).
Proof.
  induction l as [|x l IH]; simpl; [reflexivity|].
  destruct (date_ltb (date p) (date x)); simpl; [|rewrite IH]; reflexivity.
Qed.

Lemma chronological_length (data : list PricePoint) :
  length (chronological data) = length data.
Proof.
  unfold chronological.
  assert (G : forall acc,
             length (fold_left (fun acc p => insert_point p acc) data acc)
             = (length data + length acc)%nat).
  { induction data as [|p data IH]; intros acc; simpl; [reflexivity|].
    rewrite IH, insert_point_length. lia. }
  rewrite G. simpl. lia.
Qed.

Lemma rows_of_bin_map (bin_of : Date -> Date) (L : Date) (l : list PricePoint) :
  rows_of_bin bin_of L (map row_of_record l)
  = map row_of_record (filter (fun p => date_eqb (bin_of (date p)) L) l).
Proof.
  unfold rows_of_bin. induction l as [|p l IH]; simpl; [reflexivity|].
  destruct (date_eqb (bin_of (date p)) L); simpl; rewrite IH; reflexivity.
Qed.

Lemma mem_string_In (s : string) (l : list string) :
  mem_string s l = true <-> In s l.
Proof.
  unfold mem_string. rewrite existsb_exists. split.
  - intros (x & Hx & E). apply String.eqb_eq in E. subst. exact Hx.
  - intros H. exists s. split; [exact H | apply String.eqb_refl].
Qed.

Lemma add_columns_In (s : string) (cols ks : list string) :
  In s (add_columns cols ks) <-> In s cols \/ In s ks.
Proof.
  unfold add_columns. revert cols.
  induction ks as [|k ks IH]; intros cols; simpl; [tauto|].
  rewrite IH. destruct (mem_string k cols) eqn:E.
  - apply mem_string_In in E. intuition congruence.
  - rewrite in_app_iff. simpl. intuition congruence.
Qed.

Lemma columns_of_records_In (s : string) (data : list PricePoint) :
  In s (columns_of_records data)
  <-> exists p, In p data /\ In s (keys (values p)).
Proof.
  unfold columns_of_records.
  assert (G : forall acc,
             In s (fold_left (fun acc p => add_columns acc (keys (values p))) data acc)
             <-> In s acc \/ exists p, In p data /\ In s (keys (values p))).
  { induction data as [|p data IH]; intros acc; simpl.
    - split; [tauto | intros [H | (p & [] & _)]; exact H].
    - rewrite IH, add_columns_In. split.
      + intros [[H | H] | (q & Hq & Hs)]; eauto.
      + intros [H | (q & [<- | Hq] & Hs)]; eauto. }
  rewrite G. simpl. tauto.
Qed.

Lemma last_valid_from (col : list (option Q)) (a : option Q) :
  fold_left (fun acc c => match c with Some v => Some v | None => acc end) col a
  = match last_valid col with Some v => Some v | None => a end.
Proof.
  unfold last_valid. revert a.
  induction col as [|c col IH]; intros a; simpl; [reflexivity|].
  rewrite IH, (IH match c with Some v => Some v | None => None end).
  destruct (fold_left _ col None); [reflexivity|]. destruct c; reflexivity.
Qed.

Lemma last_valid_all_none (col : list (option Q)) :
  (forall c, In c col -> c = None) -> last_valid col = None.
Proof.
  unfold last_valid. induction col as [|c col IH]; intros H; simpl; [reflexivity|].
  rewrite (H c) by (simpl; auto). apply IH. intros c' Hc'. apply H. simpl. auto.
Qed.

(** A later value replaces an earlier one; a later missing value does not. *)
Lemma last_valid_app (col1 col2 : list (option Q)) :
  last_valid (col1 ++ col2)
  = match last_valid col2 with Some v => Some v | None => last_valid col1 end.
Proof.
  unfold last_valid at 1. rewrite fold_left_app. apply last_valid_from.
Qed.

Lemma last_value_app (symbol : string) (earlier later : list PricePoint) :
  last_value symbol (earlier ++ later)
  = match last_value symbol later with
    | Some v => Some v
    | None => last_value symbol earlier
    end.
Proof. unfold last_value. rewrite map_app. apply last_valid_app. Qed.

Lemma entry_values_get (cells : string -> option Q) (cols : list string)
    (e : dict Q) (s : string) :
  dict_get s
    (fold_left (fun entry col =>
                  match cells col with
                  | Some v => dict_set col (Num.round2 v) entry
                  | None => entry
                  end) cols e)
  = if mem_string s cols
    then match cells s with
         | Some v => Some (Num.round2 v)
         | None => dict_get s e
         end
    else dict_get s e.
Proof.
  revert e. induction cols as [|c cols IH]; intros e; simpl; [reflexivity|].
  rewrite IH. destruct (String.eqb s c) eqn:E; simpl.
  - apply String.eqb_eq in E. subst c.
    destruct (cells s) as [v|] eqn:Ec.
    + rewrite dict_get_set_same. destruct (mem_string s cols); reflexivity.
    + destruct (mem_string s cols); reflexivity.
  - apply String.eqb_neq in E.
    destruct (cells c) as [v|]; [|reflexivity].
    rewrite (dict_get_set_other c s) by exact E. reflexivity.
Qed.

End Frames.

Section Chronological.

Lemma insert_point_last (p : PricePoint) (l : list PricePoint) :
  Forall (fun q => date_ltb (date p) (date q) = false) l ->
  insert_point p l = l ++ [p].
Proof.
  induction 1 as [|q l Hq _ IH]; simpl; [reflexivity|].
  rewrite Hq, IH. reflexivity.
Qed.

(** A series that is in chronological order already is its own
    chronological order, and its buckets are read off it directly. *)
Lemma chronological_ascending (data : list PricePoint) :
  ascending data -> chronological data = data.
Proof.
  unfold chronological, ascending. intros H.
  assert (G : forall acc,
             Forall (fun q => Forall (fun p => date_ltb (date p) (date q) = false) data) acc ->
             fold_left (fun acc p => insert_point p acc) data acc = acc ++ data).
  { induction H as [|p data Hs IH Hp]; intros acc Hacc; simpl.
    - rewrite app_nil_r. reflexivity.
    - rewrite insert_point_last.
      + rewrite IH; [rewrite <- app_assoc; reflexivity|].
        apply Forall_app. split.
        * eapply Forall_impl; [|exact Hacc].
          intros q Hq. apply Forall_inv_tail in Hq. exact Hq.
        * constructor; [exact Hp | constructor].
      + eapply Forall_impl; [|exact Hacc].
        intros q Hq. apply Forall_inv in Hq. exact Hq. }
  apply (G []). constructor.
Qed.

Lemma bucket_ascending (bin_of : Date -> Date) (L : Date) (data : list PricePoint) :
  ascending data ->
  bucket bin_of L data = filter (fun p => date_eqb (bin_of (date p)) L) data.
Proof. intros H. unfold bucket. rewrite (chronological_ascending data H). reflexivity. Qed.

End Chronological.

Section Resampled.

Variable bin_of : Date -> Date.
Variable data : list PricePoint.

Lemma resampled_row (r : PricePoint) :
  In r (resampled_entries bin_of data) ->
  In (date r) (bin_labels bin_of (map row_of_record (chronological data))) /\
  forall symbol,
    dict_get symbol (values r)
    = option_map Num.round2 (last_value symbol (bucket bin_of (date r) data)).
Proof.
  unfold resampled_entries, entries_of_frame, dropna_all, resample_last.
  cbn [columns rows]. rewrite sort_index_map.
  intros H. apply filter_In in H. destruct H as [H _].
  apply in_map_iff in H. destruct H as (row & <- & H).
  apply filter_In in H. destruct H as [H _].
  apply in_map_iff in H. destruct H as (L & <- & HL).
  unfold entry_of_row. cbn [date values label_of cell fst snd].
  split; [exact HL|]. intros symbol.
  rewrite entry_values_get. cbn [dict_get].
  rewrite rows_of_bin_map, map_map.
  change (last_valid
            (map (fun x => cell (row_of_record x) symbol)
               (filter (fun p => date_eqb (bin_of (date p)) L) (chronological data))))
    with (last_value symbol (bucket bin_of L data)).
  destruct (mem_string symbol (columns_of_records data)) eqn:E.
  - destruct (last_value symbol (bucket bin_of L data)); reflexivity.
  - replace (last_value symbol (bucket bin_of L data)) with (@None Q);
      [reflexivity|].
    symmetry. apply last_valid_all_none. intros c Hc.
    apply in_map_iff in Hc. destruct Hc as (p & <- & Hp).
    apply filter_In in Hp. destruct Hp as [Hp _].
    rewrite chronological_In in Hp.
    apply dict_get_none_not_key. intros Hk.
    assert (Hin : In symbol (columns_of_records data))
      by (apply columns_of_records_In; exists p; split; [exact Hp | exact Hk]).
    apply mem_string_In in Hin. congruence.
Qed.

Lemma resampled_row_origin (r : PricePoint) :
  In r (resampled_entries bin_of data) ->
  exists p, In p data /\ date r = bin_of (date p).
Proof.
  intros H. apply resampled_row in H. destruct H as [H _].
  apply bin_labels_In in H. destruct H as (row & Hrow & E).
  apply in_map_iff in Hrow. destruct Hrow as (p & <- & Hp).
  exists p. split; [apply chronological_In; exact Hp | exact E].
Qed.

Lemma resampled_dates :
  map date (resampled_entries bin_of data)
  = map label_of
      (filter (fun row => has_values (entry_of_row (columns_of_records data) row))
         (filter (fun r => existsb (fun c => notna (cell r c)) (columns_of_records data))
            (rows (resample_last bin_of
                     (mkFrame (columns_of_records data) (map row_of_record data)))))).
Proof.
  unfold resampled_entries, entries_of_frame, dropna_all. cbn [columns rows].
  rewrite filter_map_swap, map_map. reflexivity.
Qed.

Lemma resampled_sorted :
  StronglySorted date_lt (map date (resampled_entries bin_of data)).
Proof.
  rewrite resampled_dates.
  do 2 apply StronglySorted_map_filter.
  unfold resample_last. cbn [columns rows]. rewrite map_map.
  cbn [label_of fst]. rewrite map_id. apply bin_labels_sorted.
Qed.

Lemma resampled_length :
  (length (resampled_entries bin_of data) <= length data)%nat.
Proof.
  unfold resampled_entries, entries_of_frame, dropna_all, resample_last.
  cbn [columns rows].
  eapply Nat.le_trans; [apply filter_length_le|]. rewrite length_map.
  eapply Nat.le_trans; [apply filter_length_le|]. rewrite length_map.
  eapply Nat.le_trans; [apply bin_labels_length|].
  rewrite sort_index_map, length_map, chronological_length. lia.
Qed.

End Resampled.

Section ResampleData.

Lemma resample_data_weekly (data : list PricePoint) :
  valid_dates data ->
  resample_data data "weekly" = Some (resampled_entries week_end data).
Proof.
  intros H. unfold resample_data. cbn [String.eqb Ascii.eqb Bool.eqb].
  destruct data as [|p data]; [reflexivity|].
  rewrite (frame_of_records_valid _ H). reflexivity.
Qed.

Lemma resample_data_monthly (data : list PricePoint) :
  valid_dates data ->
  resample_data data "monthly" = Some (resampled_entries month_end data).
Proof.
  intros H. unfold resample_data. cbn [String.eqb Ascii.eqb Bool.eqb].
  destruct data as [|p data]; [reflexivity|].
  rewrite (frame_of_records_valid _ H). reflexivity.
Qed.

End ResampleData.

Section ResamplerProperties.

(** C6. With the frequency ['daily'] the resampler returns its input, and
    it returns an empty series as it is whatever the frequency; so
    resampling twice with ['daily'] gives the series back. *)
Theorem resample_data_identity :
  (forall data, resample_data data "daily" = Some data) /\
  (forall frequency, resample_data [] frequency = Some []) /\
  (forall data,
      match resample_data data "daily" with
      | Some once => resample_data once "daily" = Some data
      | None => False
      end).
Proof.
  split; [|split].
  - intros data. reflexivity.
  - intros frequency. unfold resample_data.
    destruct (String.eqb frequency "daily"); reflexivity.
  - intros data. reflexivity.
Qed.

(** C1, as the code has it. For the frequencies ['weekly'] and ['monthly']
    and a series of valid dates, the resampler returns a series each row of
    which is dated with the end of the bucket of some point of the input,
    and holds for every symbol the last value of that symbol that is not
    missing among the points of the bucket, taken in chronological order
    and rounded to two decimals: the value of an earlier point of the
    bucket is kept when the later points lack the symbol, and a symbol
    that no point of the bucket has is absent from the row. *)
Theorem resample_data_last_values (data : list PricePoint) (frequency : string) :
  frequency = "weekly"%string \/ frequency = "monthly"%string ->
  valid_dates data ->
  exists out,
    resample_data data frequency = Some out /\
    forall r, In r out ->
      (exists p, In p data /\ date r = bin_of_frequency frequency (date p)) /\
      forall symbol,
        dict_get symbol (values r)
        = option_map Num.round2
            (last_value symbol (bucket (bin_of_frequency frequency) (date r) data)).
Proof.
  intros [-> | ->] Hvalid.
  - exists (resampled_entries week_end data).
    split; [apply resample_data_weekly; exact Hvalid|].
    intros r Hr. split.
    + apply resampled_row_origin. exact Hr.
    + apply resampled_row. exact Hr.
  - exists (resampled_entries month_end data).
    split; [apply resample_data_monthly; exact Hvalid|].
    intros r Hr. split.
    + apply resampled_row_origin. exact Hr.
    + apply resampled_row. exact Hr.
Qed.

Lemma gap_in_last_row_valid : valid_dates gap_in_last_row.
Proof. repeat constructor. Defined.

Lemma resample_data_last_values_example :
  exists out,
    resample_data gap_in_last_row "weekly" = Some out /\
    forall r, In r out ->
      (exists p, In p gap_in_last_row /\ date r = week_end (date p)) /\
      forall symbol,
        dict_get symbol (values r)
        = option_map Num.round2
            (last_value symbol (bucket week_end (date r) gap_in_last_row)).
Proof.
  exact (resample_data_last_values gap_in_last_row "weekly"
           (or_introl eq_refl) gap_in_last_row_valid).
Defined.

(** The week of Monday 2025-01-06: the last point of the bucket, of Tuesday,
    has no SPY value, the point of Monday has one, and the row of the week
    holds it.  The resampler is not a last-row snapshot. *)
Lemma resample_data_not_last_row_snapshot :
  resample_data gap_in_last_row "weekly"
  = Some [mkPoint (mkDate 2025 1 12) [("SPY"%string, 100%Q); ("QQQ"%string, 102%Q)]]
  /\ last_point (bucket week_end (mkDate 2025 1 12) gap_in_last_row)
     = Some (mkPoint (mkDate 2025 1 7) [("QQQ"%string, 102%Q)])
  /\ ~ last_row_snapshot week_end gap_in_last_row
         [mkPoint (mkDate 2025 1 12) [("SPY"%string, 100%Q); ("QQQ"%string, 102%Q)]].
Proof.
  split; [vm_compute; reflexivity|].
  split; [vm_compute; reflexivity|].
  intros H.
  specialize (H (mkPoint (mkDate 2025 1 12)
                         [("SPY"%string, 100%Q); ("QQQ"%string, 102%Q)])
                (mkPoint (mkDate 2025 1 7) [("QQQ"%string, 102%Q)])
                (or_introl eq_refl) eq_refl "SPY"%string).
  vm_compute in H. discriminate H.
Qed.

(** C7, as the code has it. For a series of valid dates, the rows of the
    monthly resample are dated with strictly increasing month ends, each
    the end of the month of some point of the input, and the monthly and
    the weekly resample each have at most as many rows as the series. *)
Theorem resample_data_monotonicity (data : list PricePoint) :
  valid_dates data ->
  exists monthly weekly,
    resample_data data "monthly" = Some monthly /\
    resample_data data "weekly" = Some weekly /\
    StronglySorted date_lt (map date monthly) /\
    Forall (fun r => is_month_end (date r) /\
                     exists p, In p data /\ date r = month_end (date p)) monthly /\
    (length monthly <= length data)%nat /\
    (length weekly <= length data)%nat.
Proof.
  intros Hvalid.
  exists (resampled_entries month_end data), (resampled_entries week_end data).
  split; [apply resample_data_monthly; exact Hvalid|].
  split; [apply resample_data_weekly; exact Hvalid|].
  split; [apply resampled_sorted|].
  split; [|split; apply resampled_length].
  apply Forall_forall. intros r Hr.
  destruct (resampled_row_origin month_end data r Hr) as (p & Hp & E).
  split; [|exists p; split; assumption].
  unfold is_month_end. rewrite E. reflexivity.
Qed.

Lemma two_months_valid : valid_dates two_months.
Proof. repeat constructor. Defined.

Lemma resample_data_monotonicity_example :
  exists monthly weekly,
    resample_data two_months "monthly" = Some monthly /\
    resample_data two_months "weekly" = Some weekly /\
    StronglySorted date_lt (map date monthly) /\
    Forall (fun r => is_month_end (date r) /\
                     exists p, In p two_months /\ date r = month_end (date p))
           monthly /\
    (length monthly <= 2)%nat /\
    (length weekly <= 2)%nat.
Proof.
  exact (resample_data_monotonicity two_months two_months_valid).
Defined.

(** Monday 2025-03-31 and Tuesday 2025-04-01 are in one week and in two
    months: the monthly resample has two rows and the weekly one has one. *)
Lemma resample_data_monthly_outnumbers_weekly :
  exists monthly weekly,
    resample_data two_months "monthly" = Some monthly /\
    resample_data two_months "weekly" = Some weekly /\
    monthly = [ mkPoint (mkDate 2025 3 31) [("SPY"%string, 100%Q)];
                mkPoint (mkDate 2025 4 30) [("SPY"%string, 101%Q)] ] /\
    weekly = [ mkPoint (mkDate 2025 4 6) [("SPY"%string, 101%Q)] ] /\
    ~ (length monthly <= length weekly)%nat.
Proof.
  eexists. eexists.
  split; [vm_compute; reflexivity|].
  split; [vm_compute; reflexivity|].
  split; [reflexivity|]. split; [reflexivity|].
  simpl. lia.
Qed.

End ResamplerProperties.

(** ** Normalizer *)

Section Normalizer.

Lemma np_div_self (p0 : Q) :
  ~ (p0 == 0)%Q -> exists q, np_div p0 p0 = Some q /\ (q * 100 == 100)%Q.
Proof.
  intros H. unfold np_div.
  destruct (Qeq_bool p0 0) eqn:E; [apply Qeq_bool_iff in E; contradiction|].
  eexists. split; [reflexivity|]. field. exact H.
Qed.

Lemma entry_of_normalized_single (symbol : string) (rws : list Row) (d : Date)
    (cells : string -> option Q) (v : Q) :
  cells symbol = Some v ->
  entry_of_normalized [symbol] (mkFrame [symbol] rws) (d, cells)
  = mkPoint d [(symbol, Num.round2 v)].
Proof.
  intros H. unfold entry_of_normalized.
  cbn [fold_left columns mem_string existsb cell snd label_of fst].
  rewrite String.eqb_refl, H. reflexivity.
Qed.

(** What the normalizer aims at: a symbol that is alone, and so fixes the
    index of the frame by itself, starts at 100. *)
Lemma single_symbol_starts_at_100 (close_prices : DataFrame) (symbol : string)
    (d0 : Date) (p0 : Q) (rest : list (Date * Q)) :
  mem_string symbol (columns close_prices) = true ->
  dropna (column close_prices symbol) = (d0, p0) :: rest ->
  ~ (p0 == 0)%Q ->
  first_value symbol
    (records_of_normalized [symbol] (normalize [symbol] close_prices))
  = Some 100%Q.
Proof.
  intros Hcol Hdrop Hp0.
  destruct (np_div_self p0 Hp0) as (q & Hq & Hq100).
  unfold normalize. cbn [fold_left]. rewrite Hcol, Hdrop.
  unfold set_column. cbn [rows columns map mem_string existsb app fst snd].
  rewrite Hq.
  unfold records_of_normalized. cbn [rows columns map].
  rewrite (entry_of_normalized_single symbol _ d0 _ (q * 100)%Q)
    by (rewrite String.eqb_refl; reflexivity).
  cbn [filter]. unfold has_values at 1. cbn [values length].
  change (1 <? Z.of_nat 2) with true. cbn iota.
  cbn [first_value values dict_get]. rewrite String.eqb_refl.
  rewrite (round2_comp _ 100 Hq100). reflexivity.
Qed.

(** C5 fails on the code. The symbol listed first has no close on
    2025-01-02, so the frame of normalized values is indexed by its dates
    alone; SPY is rebased on its close of 2025-01-02, and that row is not in
    the index: the first value SPY keeps is 101, not 100. *)
Theorem fetch_equity_data_first_value_lost :
  snd (fetch_equity_data late_listing ["NEW"%string; "SPY"%string]
         (mkDate 2025 1 1) (mkDate 2025 1 31) "daily")
  = Some [mkPoint (mkDate 2025 1 3) [("NEW"%string, 100%Q); ("SPY"%string, 101%Q)]]
  /\ first_value "SPY"
       [mkPoint (mkDate 2025 1 3) [("NEW"%string, 100%Q); ("SPY"%string, 101%Q)]]
     = Some 101%Q.
Proof. split; vm_compute; reflexivity. Qed.

End Normalizer.

(** ** Orchestration *)

Section Main.

Lemma prints_only_app (evs evs' : list event) :
  prints_only evs -> prints_only evs' -> prints_only (evs ++ evs').
Proof. intros H H'. apply Forall_app. split; assumption. Qed.

Lemma choose_frequency_prints (args : Args) :
  prints_only (fst (choose_frequency args)).
Proof.
  unfold choose_frequency, prints_only.
  destruct (arg_frequency args) as [f|]; simpl.
  - repeat constructor. eexists. reflexivity.
  - destruct (calculate_optimal_frequency _ _ _); simpl; repeat constructor.
    eexists. reflexivity.
Qed.

Lemma fetch_equity_data_prints (closes : Closes) (symbols : list string)
    (start_date end_date : Date) (frequency : string) :
  fst (fetch_equity_data closes symbols start_date end_date frequency)
  = [ Print (MsgFetching symbols start_date end_date);
      Print (MsgFrequency frequency) ].
Proof.
  unfold fetch_equity_data, bind, print, lift.
  destruct (close_prices_of symbols closes); reflexivity.
Qed.

(** C9. When the data that comes back from fetching (retrieval,
    normalization and resampling) is empty, the run prints the notice that
    follows the messages of the frequency choice and of the fetch, and ends
    there without an exception: it printed only, nothing was written. *)
Theorem main_no_data
    (yf_download : list string -> Date -> Date -> Closes) (args : Args)
    (evs : list event) (frequency : string) :
  choose_frequency args = (evs, Some frequency) ->
  snd (fetch_equity_data
         (yf_download (arg_symbols args) (arg_start args) (arg_end args))
         (arg_symbols args) (arg_start args) (arg_end args) frequency)
  = Some [] ->
  main yf_download args
  = (evs ++ [ Print (MsgFetching (arg_symbols args) (arg_start args) (arg_end args));
              Print (MsgFrequency frequency);
              Print MsgNoData ],
     Some tt)
  /\ prints_only (fst (main yf_download args)).
Proof.
  intros Hf Hd.
  assert (E : main yf_download args
              = (evs ++ [ Print (MsgFetching (arg_symbols args) (arg_start args)
                                             (arg_end args));
                          Print (MsgFrequency frequency);
                          Print MsgNoData ],
                 Some tt)).
  { unfold main. rewrite Hf. unfold bind at 1.
    pose proof (fetch_equity_data_prints
                  (yf_download (arg_symbols args) (arg_start args) (arg_end args))
                  (arg_symbols args) (arg_start args) (arg_end args) frequency)
      as Hp.
    destruct (fetch_equity_data _ _ _ _ _) as [evs_d r].
    cbn [fst snd] in Hp, Hd. subst evs_d r. reflexivity. }
  split; [exact E|]. rewrite E. cbn [fst].
  apply prints_only_app.
  - pose proof (choose_frequency_prints args) as P. rewrite Hf in P. exact P.
  - repeat constructor; eexists; reflexivity.
Qed.

Lemma main_no_data_example :
  main no_data
    (mkArgs ["SPY"%string; "QQQ"%string] (mkDate 2025 1 1) (mkDate 2025 1 31)
            None None "stock_data.json")
  = ([ Print (MsgAutoSelected "daily") ] ++
     [ Print (MsgFetching ["SPY"%string; "QQQ"%string]
                          (mkDate 2025 1 1) (mkDate 2025 1 31));
       Print (MsgFrequency "daily");
       Print MsgNoData ],
     Some tt)
  /\ prints_only
       (fst (main no_data
               (mkArgs ["SPY"%string; "QQQ"%string] (mkDate 2025 1 1)
                       (mkDate 2025 1 31) None None "stock_data.json"))).
Proof.
  exact (main_no_data no_data
           (mkArgs ["SPY"%string; "QQQ"%string] (mkDate 2025 1 1) (mkDate 2025 1 31)
                   None None "stock_data.json")
           [Print (MsgAutoSelected "daily")] "daily" eq_refl eq_refl).
Defined.

End Main.

(** * Further properties *)

(** ** Frequency selector *)

Section SelectorThresholds.

Lemma fifth_le (n m : Z) :
  Qle_bool (inject_Z n / 5) (inject_Z m) = (n <=? 5 * m).
Proof.
  assert (E : Qle_bool (inject_Z n / 5) (inject_Z m) = (n * 1 * 1 <=? m * 5))
    by reflexivity.
  rewrite E.
  destruct (Z.leb_spec (n * 1 * 1) (m * 5)); destruct (Z.leb_spec n (5 * m));
    try reflexivity; lia.
Qed.

Lemma calculate_optimal_frequency_valid (start_date end_date : Date) (max_samples : Z) :
  valid_date start_date = true ->
  valid_date end_date = true ->
  calculate_optimal_frequency start_date end_date max_samples
  = Some (let estimate :=
            Num.int_of_quotient (days_between start_date end_date * 252) 365 in
          if estimate <=? max_samples then "daily"%string
          else if estimate <=? 5 * max_samples then "weekly"%string
          else "monthly"%string).
Proof.
  intros Hs He. unfold calculate_optimal_frequency, to_datetime.
  rewrite Hs, He. cbv zeta. rewrite fifth_le.
  destruct (_ <=? max_samples); [reflexivity|].
  destruct (_ <=? 5 * max_samples); reflexivity.
Qed.

Lemma int_of_quotient_mono (a b : Z) :
  a <= b -> Num.int_of_quotient (a * 252) 365 <= Num.int_of_quotient (b * 252) 365.
Proof.
  intros H. unfold Num.int_of_quotient. apply Z.quot_le_mono; lia.
Qed.

(** X1. With the default ceiling of 100 samples the choice is a matter of the
    number of calendar days from the start to the end: up to 146 days
    ['daily'], from 147 to 725 days ['weekly'], from 726 days on
    ['monthly']. *)
Theorem calculate_optimal_frequency_thresholds (start_date end_date : Date) :
  valid_date start_date = true ->
  valid_date end_date = true ->
  calculate_optimal_frequency start_date end_date 100
  = Some (if days_between start_date end_date <=? 146 then "daily"%string
          else if days_between start_date end_date <=? 725 then "weekly"%string
          else "monthly"%string).
Proof.
  intros Hs He. rewrite (calculate_optimal_frequency_valid _ _ _ Hs He). cbv zeta.
  set (d := days_between start_date end_date).
  pose proof (int_of_quotient_mono d 146) as H146.
  pose proof (int_of_quotient_mono 147 d) as H147.
  pose proof (int_of_quotient_mono d 725) as H725.
  pose proof (int_of_quotient_mono 726 d) as H726.
  change (Num.int_of_quotient (146 * 252) 365) with 100 in H146.
  change (Num.int_of_quotient (147 * 252) 365) with 101 in H147.
  change (Num.int_of_quotient (725 * 252) 365) with 500 in H725.
  change (Num.int_of_quotient (726 * 252) 365) with 501 in H726.
  destruct (Z.leb_spec d 146).
  - destruct (Z.leb_spec (Num.int_of_quotient (d * 252) 365) 100);
      [reflexivity | lia].
  - destruct (Z.leb_spec (Num.int_of_quotient (d * 252) 365) 100); [lia|].
    destruct (Z.leb_spec d 725);
      destruct (Z.leb_spec (Num.int_of_quotient (d * 252) 365) (5 * 100));
      try reflexivity; lia.
Qed.

Lemma calculate_optimal_frequency_thresholds_example :
  calculate_optimal_frequency (mkDate 2024 1 1) (mkDate 2024 5 26) 100
    = Some "daily"%string /\
  calculate_optimal_frequency (mkDate 2024 1 1) (mkDate 2024 5 27) 100
    = Some "weekly"%string /\
  calculate_optimal_frequency (mkDate 2024 1 1) (mkDate 2025 12 26) 100
    = Some "weekly"%string /\
  calculate_optimal_frequency (mkDate 2024 1 1) (mkDate 2025 12 27) 100
    = Some "monthly"%string.
Proof.
  split; [|split; [|split]].
  - exact (calculate_optimal_frequency_thresholds
             (mkDate 2024 1 1) (mkDate 2024 5 26) eq_refl eq_refl).
  - exact (calculate_optimal_frequency_thresholds
             (mkDate 2024 1 1) (mkDate 2024 5 27) eq_refl eq_refl).
  - exact (calculate_optimal_frequency_thresholds
             (mkDate 2024 1 1) (mkDate 2025 12 26) eq_refl eq_refl).
  - exact (calculate_optimal_frequency_thresholds
             (mkDate 2024 1 1) (mkDate 2025 12 27) eq_refl eq_refl).
Defined.

(** X2. Whatever the ceiling, a range of more days never gets a finer frequency
    than a range of fewer days. *)
Theorem calculate_optimal_frequency_monotone
    (start1 end1 start2 end2 : Date) (max_samples : Z) :
  valid_date start1 = true -> valid_date end1 = true ->
  valid_date start2 = true -> valid_date end2 = true ->
  days_between start1 end1 <= days_between start2 end2 ->
  exists f1 f2,
    calculate_optimal_frequency start1 end1 max_samples = Some f1 /\
    calculate_optimal_frequency start2 end2 max_samples = Some f2 /\
    (frequency_rank f1 <= frequency_rank f2)%nat.
Proof.
  intros Hs1 He1 Hs2 He2 Hle.
  rewrite (calculate_optimal_frequency_valid _ _ _ Hs1 He1),
          (calculate_optimal_frequency_valid _ _ _ Hs2 He2).
  do 2 eexists. split; [reflexivity|]. split; [reflexivity|]. cbv zeta.
  pose proof (int_of_quotient_mono _ _ Hle) as Hq.
  destruct (Z.leb_spec (Num.int_of_quotient (days_between start1 end1 * 252) 365)
                       max_samples);
    destruct (Z.leb_spec (Num.int_of_quotient (days_between start2 end2 * 252) 365)
                         max_samples);
    destruct (Z.leb_spec (Num.int_of_quotient (days_between start1 end1 * 252) 365)
                         (5 * max_samples));
    destruct (Z.leb_spec (Num.int_of_quotient (days_between start2 end2 * 252) 365)
                         (5 * max_samples));
    cbn; lia.
Qed.

Lemma calculate_optimal_frequency_monotone_example :
  exists f1 f2,
    calculate_optimal_frequency (mkDate 2025 1 1) (mkDate 2025 1 31) 20 = Some f1 /\
    calculate_optimal_frequency (mkDate 2024 1 1) (mkDate 2025 1 31) 20 = Some f2 /\
    (frequency_rank f1 <= frequency_rank f2)%nat.
Proof.
  exact (calculate_optimal_frequency_monotone
           (mkDate 2025 1 1) (mkDate 2025 1 31) (mkDate 2024 1 1) (mkDate 2025 1 31) 20
           eq_refl eq_refl eq_refl eq_refl ltac:(vm_compute; discriminate)).
Defined.

End SelectorThresholds.

(** ** Composite aggregator *)

Section CompositeAlgebra.

Lemma dict_set_set {V : Type} (k : string) (v1 v2 : V) (d : dict V) :
  dict_set k v2 (dict_set k v1 d) = dict_set k v2 d.
Proof.
  induction d as [|[k' v'] d IH]; simpl.
  - rewrite String.eqb_refl. reflexivity.
  - destruct (String.eqb k k') eqn:E; simpl; rewrite E; [reflexivity|].
    rewrite IH. reflexivity.
Qed.

Lemma composite_of_point_set (k : string) (x : Q) (point : PricePoint)
    (weights : dict Q) (T : Q) :
  ~ In k (keys weights) ->
  composite_of (point_set k x point) weights T = composite_of point weights T.
Proof.
  unfold composite_of. generalize 0%Q as a.
  induction weights as [|[s w] weights IH]; intros a Hk; simpl; [reflexivity|].
  simpl in Hk.
  rewrite (dict_get_set_other k s) by (intros ->; tauto).
  apply IH. tauto.
Qed.

(** X14. Aggregating a series that has been aggregated already, with the same
    weights, gives the same series again, as long as no weight is for a
    symbol called ["Composite"]: the field is written over with the same
    value. *)
Theorem calculate_composite_idempotent (data : list PricePoint) (weights : dict Q) :
  ~ In "Composite"%string (keys weights) ->
  calculate_composite (calculate_composite data weights) weights
  = calculate_composite data weights.
Proof.
  intros Hk. unfold calculate_composite.
  destruct (Qeq_bool (Num.sum (map snd weights)) 0) eqn:E; [reflexivity|].
  rewrite map_map. apply map_ext. intros point.
  rewrite (composite_of_point_set _ _ _ _ _ Hk).
  unfold point_set. cbn [date values]. rewrite dict_set_set. reflexivity.
Qed.

Lemma calculate_composite_idempotent_example :
  calculate_composite
    (calculate_composite
       [mkPoint (mkDate 2025 1 2) [("SPY"%string, 100%Q); ("QQQ"%string, 102%Q)]]
       [("SPY"%string, 50%Q); ("QQQ"%string, 50%Q)])
    [("SPY"%string, 50%Q); ("QQQ"%string, 50%Q)]
  = calculate_composite
      [mkPoint (mkDate 2025 1 2) [("SPY"%string, 100%Q); ("QQQ"%string, 102%Q)]]
      [("SPY"%string, 50%Q); ("QQQ"%string, 50%Q)].
Proof.
  exact (calculate_composite_idempotent
           [mkPoint (mkDate 2025 1 2) [("SPY"%string, 100%Q); ("QQQ"%string, 102%Q)]]
           [("SPY"%string, 50%Q); ("QQQ"%string, 50%Q)]
           ltac:(simpl; intros [H | [H | []]]; discriminate H)).
Defined.

Lemma composite_of_fill_missing_from (symbol : string) (point : PricePoint)
    (weights : dict Q) (T : Q) :
  dict_get symbol (values point) = None ->
  forall a a', (a == a')%Q ->
  (fold_left
     (fun composite sw =>
        match dict_get (fst sw) (values (point_set symbol 0 point)) with
        | Some v => composite + v * (snd sw / T)
        | None => composite
        end) weights a
   == fold_left
        (fun composite sw =>
           match dict_get (fst sw) (values point) with
           | Some v => composite + v * (snd sw / T)
           | None => composite
           end) weights a')%Q.
Proof.
  intros Hnone.
  induction weights as [|[s w] weights IH]; intros a a' Ha; simpl; [exact Ha|].
  apply IH. unfold point_set. cbn [values].
  destruct (String.eqb s symbol) eqn:E.
  - apply String.eqb_eq in E. subst s.
    rewrite dict_get_set_same, Hnone, Ha. ring.
  - apply String.eqb_neq in E.
    rewrite (dict_get_set_other symbol s) by exact E.
    destruct (dict_get s (values point)); rewrite Ha; reflexivity.
Qed.

(** X15. A symbol that a point lacks counts as a value of zero: the total weight
    is not reduced to the symbols that are present.  Giving the value zero
    to a symbol wherever it is missing changes no composite. *)
Theorem calculate_composite_missing_is_zero
    (data : list PricePoint) (weights : dict Q) (symbol : string) :
  symbol <> "Composite"%string ->
  map composite_field (calculate_composite (map (fill_missing symbol) data) weights)
  = map composite_field (calculate_composite data weights).
Proof.
  intros Hne. unfold calculate_composite.
  destruct (Qeq_bool (Num.sum (map snd weights)) 0).
  - rewrite map_map. apply map_ext. intros point.
    unfold fill_missing, composite_field, dict_mem.
    destruct (dict_get symbol (values point)) eqn:E; [reflexivity|].
    unfold point_set. cbn [values].
    apply dict_get_set_other. congruence.
  - rewrite !map_map. apply map_ext. intros point.
    unfold composite_field, point_set. cbn [values].
    rewrite !dict_get_set_same. f_equal. apply round2_comp.
    unfold fill_missing, dict_mem.
    destruct (dict_get symbol (values point)) eqn:E; [reflexivity|].
    unfold composite_of. apply composite_of_fill_missing_from; [exact E|reflexivity].
Qed.

Lemma calculate_composite_missing_is_zero_example :
  map composite_field
    (calculate_composite
       (map (fill_missing "QQQ")
            [mkPoint (mkDate 2025 1 2) [("SPY"%string, 100%Q)]])
       [("SPY"%string, 50%Q); ("QQQ"%string, 50%Q)])
  = map composite_field
      (calculate_composite
         [mkPoint (mkDate 2025 1 2) [("SPY"%string, 100%Q)]]
         [("SPY"%string, 50%Q); ("QQQ"%string, 50%Q)]).
Proof.
  exact (calculate_composite_missing_is_zero
           [mkPoint (mkDate 2025 1 2) [("SPY"%string, 100%Q)]]
           [("SPY"%string, 50%Q); ("QQQ"%string, 50%Q)] "QQQ"
           ltac:(discriminate)).
Defined.

End CompositeAlgebra.

Section CompositeTypeError.

Variable py_sum : list float -> float.
Variable round2 : float -> float.

Lemma composite_of_raised (point : Binary64.Point) (weights : dict float) (total : float) :
  fold_left
    (fun composite sw =>
       match composite with
       | None => None
       | Some c =>
           match dict_get (fst sw) point with
           | None => Some c
           | Some (Binary64.Float v) => Some (c + v * (snd sw / total))%float
           | Some (Binary64.Str _) => None
           end
       end) weights None
  = None.
Proof. induction weights as [|sw weights IH]; [reflexivity | exact IH]. Qed.

Lemma composite_of_string (point : Binary64.Point) (weights : dict float)
    (total : float) (s t : string) :
  In s (keys weights) ->
  dict_get s point = Some (Binary64.Str t) ->
  Binary64.composite_of point weights total = None.
Proof.
  unfold Binary64.composite_of. generalize (Some 0%float) as a.
  induction weights as [|[s' w] weights IH]; intros a Hs Ht; [destruct Hs|].
  cbn [fold_left fst snd].
  destruct Hs as [E | Hs].
  - cbn [fst] in E. subst s'. destruct a as [c|]; [|apply composite_of_raised].
    rewrite Ht. apply composite_of_raised.
  - apply IH; assumption.
Qed.

(** X21. With a total weight other than zero, a weight for a key under which
    some point holds a string makes the call raise: every point holds its
    date, a string, under ['date'], so that a weight for a symbol called
    ["date"] raises TypeError on the first point. *)
Theorem calculate_composite_type_error
    (data : list Binary64.Point) (weights : dict float)
    (point : Binary64.Point) (s t : string) :
  (py_sum (map snd weights) =? 0)%float = false ->
  In point data ->
  In s (keys weights) ->
  dict_get s point = Some (Binary64.Str t) ->
  Binary64.calculate_composite py_sum round2 data weights = None.
Proof.
  intros Htotal Hp Hs Ht. unfold Binary64.calculate_composite. rewrite Htotal.
  induction data as [|p data IH]; [destruct Hp|].
  cbn [Binary64.composite_points].
  destruct Hp as [-> | Hp].
  - rewrite (composite_of_string point weights _ s t Hs Ht). reflexivity.
  - destruct (Binary64.composite_of p weights _); [|reflexivity].
    rewrite (IH Hp). reflexivity.
Qed.

End CompositeTypeError.

Lemma calculate_composite_type_error_example :
  Binary64.calculate_composite Binary64.sum Binary64.np_round2 [example_point]
    [("SPY"%string, 50%float); ("date"%string, 50%float)]
  = None.
Proof.
  exact (calculate_composite_type_error Binary64.sum Binary64.np_round2 [example_point]
           [("SPY"%string, 50%float); ("date"%string, 50%float)]
           example_point "date" "2025-01-02"
           eq_refl (or_introl eq_refl) (or_intror (or_introl eq_refl)) eq_refl).
Defined.

(** ** Weight maps and orchestration *)

Section WeightMaps.

Lemma dict_set_absent {V : Type} (k : string) (v : V) (d : dict V) :
  ~ In k (keys d) -> dict_set k v d = d ++ [(k, v)].
Proof.
  induction d as [|[k' v'] d IH]; simpl; intros H; [reflexivity|].
  destruct (String.eqb k k') eqn:E.
  - apply String.eqb_eq in E. subst. tauto.
  - rewrite IH by tauto. reflexivity.
Qed.

Lemma fold_dict_set_pairs {V : Type} (l : list (string * V)) : forall acc : dict V,
  NoDup (keys acc ++ map fst l) ->
  fold_left (fun d sw => dict_set (fst sw) (snd sw) d) l acc = acc ++ l.
Proof.
  induction l as [|[k v] l IH]; intros acc H; simpl.
  - rewrite app_nil_r. reflexivity.
  - simpl in H. rewrite dict_set_absent.
    + rewrite IH.
      * rewrite <- app_assoc. reflexivity.
      * unfold keys in *. rewrite map_app, <- app_assoc. exact H.
    + apply NoDup_remove_2 in H. intros Hin. apply H.
      apply in_or_app. left. exact Hin.
Qed.

Lemma NoDup_fst_combine {B : Type} (l : list string) (l' : list B) :
  NoDup l -> NoDup (map fst (combine l l')).
Proof.
  revert l'. induction l as [|a l IH]; intros l' H; simpl; [constructor|].
  destruct l' as [|b l']; simpl; [constructor|].
  inversion H as [|? ? Ha Hl]; subst. constructor; [|apply IH; exact Hl].
  intros Hin. apply Ha. apply in_map_iff in Hin.
  destruct Hin as ([x y] & <- & Hxy). apply in_combine_l in Hxy. exact Hxy.
Qed.

(** X17. For symbols that are all different, the weight map built from the
    command line pairs every symbol with the weight at its position, in the
    order of the symbols. *)
Theorem zip_weights_distinct (symbols : list string) (ws : list Q) :
  NoDup symbols ->
  zip_weights symbols ws = combine symbols ws /\
  forall i s w, nth_error symbols i = Some s -> nth_error ws i = Some w ->
                dict_get s (zip_weights symbols ws) = Some w.
Proof.
  intros Hnd.
  assert (E : zip_weights symbols ws = combine symbols ws).
  { unfold zip_weights. rewrite fold_dict_set_pairs; [reflexivity|].
    simpl. apply NoDup_fst_combine. exact Hnd. }
  split; [exact E|]. rewrite E. clear E.
  revert ws. induction Hnd as [|a l Ha Hl IH]; intros ws i s w Hs Hw.
  - destruct i; discriminate.
  - destruct ws as [|b ws]; [destruct i; discriminate|].
    destruct i as [|i]; simpl in *.
    + injection Hs as ->. injection Hw as ->. rewrite String.eqb_refl. reflexivity.
    + destruct (String.eqb s a) eqn:E.
      * apply String.eqb_eq in E. subst. exfalso. apply Ha.
        apply nth_error_In in Hs. exact Hs.
      * apply (IH ws i); assumption.
Qed.

Lemma zip_weights_distinct_example :
  zip_weights ["SPY"%string; "QQQ"%string] [60%Q; 40%Q]
  = [("SPY"%string, 60%Q); ("QQQ"%string, 40%Q)] /\
  forall i s w,
    nth_error ["SPY"%string; "QQQ"%string] i = Some s ->
    nth_error [60%Q; 40%Q] i = Some w ->
    dict_get s (zip_weights ["SPY"%string; "QQQ"%string] [60%Q; 40%Q]) = Some w.
Proof.
  refine (zip_weights_distinct ["SPY"%string; "QQQ"%string] [60%Q; 40%Q] _).
  repeat constructor; simpl; intros H;
    repeat (destruct H as [H | H]; [discriminate H|]); exact H.
Defined.

Lemma keys_dict_set {V : Type} (k k' : string) (v : V) (d : dict V) :
  In k (keys (dict_set k' v d)) -> k = k' \/ In k (keys d).
Proof.
  induction d as [|[k0 v0] d IH]; simpl.
  - intros [<- | []]. left. reflexivity.
  - destruct (String.eqb k' k0) eqn:E; simpl.
    + intros H. right. exact H.
    + intros [<- | H]; [right; left; reflexivity|].
      destruct (IH H) as [-> | H']; [left; reflexivity | right; right; exact H'].
Qed.

Lemma keys_equal_weights (symbols : list string) (s : string) :
  In s (keys (equal_weights symbols)) -> In s symbols.
Proof.
  unfold equal_weights.
  generalize (100 / inject_Z (Z.of_nat (length symbols)))%Q as x. intros x.
  assert (G : forall (l : list string) (acc : dict Q),
             In s (keys (fold_left (fun d s0 => dict_set s0 x d) l acc)) ->
             In s (keys acc) \/ In s l).
  { induction l as [|a l IH]; intros acc H; simpl in *; [left; exact H|].
    destruct (IH _ H) as [H' | H']; [|right; right; exact H'].
    destruct (keys_dict_set _ _ _ _ H') as [-> | H'']; [right; left; reflexivity|].
    left. exact H''. }
  intros H. destruct (G symbols [] H) as [[] | H']. exact H'.
Qed.

Lemma keys_zip_weights (symbols : list string) (ws : list Q) (s : string) :
  In s (keys (zip_weights symbols ws)) -> In s symbols.
Proof.
  unfold zip_weights.
  assert (G : forall (l : list (string * Q)) (acc : dict Q),
             In s (keys (fold_left (fun d sw => dict_set (fst sw) (snd sw) d) l acc)) ->
             In s (keys acc) \/ In s (map fst l)).
  { induction l as [|[a w] l IH]; intros acc H; simpl in *; [left; exact H|].
    destruct (IH _ H) as [H' | H']; [|right; right; exact H'].
    destruct (keys_dict_set _ _ _ _ H') as [-> | H'']; [right; left; reflexivity|].
    left. exact H''. }
  intros H. destruct (G (combine symbols ws) [] H) as [[] | H'].
  apply in_map_iff in H'. destruct H' as ([a w] & <- & Haw).
  apply in_combine_l in Haw. exact Haw.
Qed.

End WeightMaps.

Section MainRuns.

Lemma prints_only_no_write (evs : list event) :
  prints_only evs -> filter is_write evs = [].
Proof.
  induction 1 as [|e evs (m & ->) _ IH]; simpl; [reflexivity | exact IH].
Qed.

Lemma choose_weights_prints (args : Args) :
  exists evs weights,
    choose_weights args = (evs, Some weights) /\ prints_only evs /\
    forall s, In s (keys weights) -> In s (arg_symbols args).
Proof.
  unfold choose_weights, prints_only.
  destruct (arg_weights args) as [[|w ws]|].
  - do 2 eexists. split; [reflexivity|]. split; [constructor|].
    apply keys_equal_weights.
  - destruct (negb _).
    + do 2 eexists. split; [reflexivity|]. split.
      * repeat constructor. eexists. reflexivity.
      * apply keys_equal_weights.
    + do 2 eexists. split; [reflexivity|]. split; [constructor|].
      apply keys_zip_weights.
  - do 2 eexists. split; [reflexivity|]. split; [constructor|].
    apply keys_equal_weights.
Qed.

Lemma calculate_composite_dates (data : list PricePoint) (weights : dict Q) :
  map date (calculate_composite data weights) = map date data.
Proof.
  unfold calculate_composite. destruct (Qeq_bool _ 0); [reflexivity|].
  rewrite map_map. apply map_ext. intros point. reflexivity.
Qed.

(** X19. When no symbol of the command line is called ["date"] and fetching
    returns at least one point, the run ends without an exception and
    writes exactly one document, at the path of the command line: it holds
    the symbols and the two dates of the command line, weights for symbols
    of the command line only, and one point for every fetched point, with
    its date. *)
Theorem main_writes_once
    (yf_download : list string -> Date -> Date -> Closes) (args : Args)
    (evs : list event) (frequency : string) (point : PricePoint)
    (rest : list PricePoint) :
  ~ In "date"%string (arg_symbols args) ->
  choose_frequency args = (evs, Some frequency) ->
  snd (fetch_equity_data
         (yf_download (arg_symbols args) (arg_start args) (arg_end args))
         (arg_symbols args) (arg_start args) (arg_end args) frequency)
  = Some (point :: rest) ->
  exists doc,
    snd (main yf_download args) = Some tt /\
    filter is_write (fst (main yf_download args))
    = [ WriteJson (arg_output args) doc ] /\
    doc_symbols doc = arg_symbols args /\
    doc_start_date doc = arg_start args /\
    doc_end_date doc = arg_end args /\
    (forall s, In s (keys (doc_weights doc)) -> In s (arg_symbols args)) /\
    map date (doc_data doc) = map date (point :: rest).
Proof.
  intros Hdate Hf Hd.
  destruct (choose_weights_prints args) as (evs_w & weights & Hw & Pw & Kw).
  assert (Hcall : calculate_composite_call (point :: rest) weights
                  = Some (calculate_composite (point :: rest) weights)).
  { apply calculate_composite_call_returns. intros H. apply Hdate, Kw, H. }
  exists (mkDocument (arg_symbols args) weights (arg_start args) (arg_end args)
                     (calculate_composite (point :: rest) weights)).
  pose proof (choose_frequency_prints args) as Pf. rewrite Hf in Pf. cbn [fst] in Pf.
  assert (E : exists tail,
             main yf_download args
             = (evs ++
                [ Print (MsgFetching (arg_symbols args) (arg_start args) (arg_end args));
                  Print (MsgFrequency frequency) ] ++
                evs_w ++
                WriteJson (arg_output args)
                  (mkDocument (arg_symbols args) weights (arg_start args)
                     (arg_end args) (calculate_composite (point :: rest) weights))
                :: tail,
                Some tt)
             /\ prints_only tail).
  { unfold main. rewrite Hf. unfold bind at 1.
    pose proof (fetch_equity_data_prints
                  (yf_download (arg_symbols args) (arg_start args) (arg_end args))
                  (arg_symbols args) (arg_start args) (arg_end args) frequency)
      as Hp.
    destruct (fetch_equity_data _ _ _ _ _) as [evs_d r].
    cbn [fst snd] in Hp, Hd. subst evs_d r.
    unfold bind at 1. rewrite Hw. unfold bind at 1. cbv beta iota.
    rewrite Hcall.
    unfold lift, write_json, print, ret, bind, print_samples.
    destruct (calculate_composite (point :: rest) weights) as [|first others];
      cbn [app]; eexists; (split; [reflexivity|]);
      repeat constructor; eexists; reflexivity. }
  destruct E as (tail & E & Pt). rewrite E. cbn [fst snd].
  split; [reflexivity|].
  split.
  - rewrite !filter_app, (prints_only_no_write _ Pf), (prints_only_no_write _ Pw).
    cbn [filter is_write app]. rewrite (prints_only_no_write _ Pt). reflexivity.
  - cbn [doc_symbols doc_start_date doc_end_date doc_weights doc_data].
    repeat (split; [reflexivity|]).
    split; [exact Kw | apply calculate_composite_dates].
Qed.

Lemma main_writes_once_example :
  exists doc,
    snd (main (fun _ _ _ => late_listing)
           (mkArgs ["NEW"%string; "SPY"%string] (mkDate 2025 1 1) (mkDate 2025 1 31)
                   None None "stock_data.json")) = Some tt /\
    filter is_write
      (fst (main (fun _ _ _ => late_listing)
              (mkArgs ["NEW"%string; "SPY"%string] (mkDate 2025 1 1)
                      (mkDate 2025 1 31) None None "stock_data.json")))
    = [ WriteJson "stock_data.json" doc ] /\
    doc_symbols doc = ["NEW"%string; "SPY"%string] /\
    doc_start_date doc = mkDate 2025 1 1 /\
    doc_end_date doc = mkDate 2025 1 31 /\
    (forall s, In s (keys (doc_weights doc)) -> In s ["NEW"%string; "SPY"%string]) /\
    map date (doc_data doc) = [mkDate 2025 1 3].
Proof.
  refine (main_writes_once (fun _ _ _ => late_listing)
            (mkArgs ["NEW"%string; "SPY"%string] (mkDate 2025 1 1) (mkDate 2025 1 31)
                    None None "stock_data.json")
            [Print (MsgAutoSelected "daily")] "daily"
            (mkPoint (mkDate 2025 1 3) [("NEW"%string, 100%Q); ("SPY"%string, 101%Q)])
            [] _ eq_refl eq_refl).
  simpl. intros [H | [H | []]]; discriminate H.
Defined.

Lemma calculate_composite_call_raises (data : list PricePoint) (weights : dict Q)
    (point : PricePoint) :
  ~ (Num.sum (map snd weights) == 0)%Q ->
  In "date"%string (keys weights) ->
  In point data ->
  dict_get "date" (values point) = None ->
  calculate_composite_call data weights = None.
Proof.
  intros Htotal Hk Hp Hd. unfold calculate_composite_call.
  destruct (Qeq_bool _ 0) eqn:E; [apply Qeq_bool_iff in E; contradiction|].
  assert (Hx : existsb (multiplies_date weights) data = true).
  { apply existsb_exists. exists point. split; [exact Hp|].
    unfold multiplies_date, dict_mem. rewrite Hd.
    destruct (dict_get "date" weights) eqn:Ew; [reflexivity|].
    apply dict_get_none_not_key in Ew. contradiction. }
  rewrite Hx. reflexivity.
Qed.

(** X22. A symbol called ["date"] stops the run: when the weights in use have
    a weight for it, their total is not zero, and a fetched point has no
    value for it, the run raises in the aggregator, before anything is
    written. *)
Theorem main_date_symbol
    (yf_download : list string -> Date -> Date -> Closes) (args : Args)
    (evs evs_w : list event) (frequency : string) (weights : dict Q)
    (data : list PricePoint) (point : PricePoint) :
  choose_frequency args = (evs, Some frequency) ->
  snd (fetch_equity_data
         (yf_download (arg_symbols args) (arg_start args) (arg_end args))
         (arg_symbols args) (arg_start args) (arg_end args) frequency)
  = Some data ->
  choose_weights args = (evs_w, Some weights) ->
  In "date"%string (keys weights) ->
  ~ (Num.sum (map snd weights) == 0)%Q ->
  In point data ->
  dict_get "date" (values point) = None ->
  snd (main yf_download args) = None /\
  filter is_write (fst (main yf_download args)) = [].
Proof.
  intros Hf Hd Hw Hk Htotal Hp Hdate.
  pose proof (choose_frequency_prints args) as Pf. rewrite Hf in Pf. cbn [fst] in Pf.
  destruct (choose_weights_prints args) as (evs_w' & weights' & Hw' & Pw & _).
  rewrite Hw in Hw'. injection Hw' as <- <-.
  assert (E : main yf_download args
              = (evs ++
                 [ Print (MsgFetching (arg_symbols args) (arg_start args)
                                      (arg_end args));
                   Print (MsgFrequency frequency) ] ++ evs_w ++ [],
                 None)).
  { unfold main. rewrite Hf. unfold bind at 1.
    pose proof (fetch_equity_data_prints
                  (yf_download (arg_symbols args) (arg_start args) (arg_end args))
                  (arg_symbols args) (arg_start args) (arg_end args) frequency)
      as Hpr.
    destruct (fetch_equity_data _ _ _ _ _) as [evs_d r].
    cbn [fst snd] in Hpr, Hd. subst evs_d r.
    destruct data as [|first others]; [destruct Hp|].
    unfold bind at 1. rewrite Hw. unfold bind at 1. cbv beta iota.
    rewrite (calculate_composite_call_raises _ _ point Htotal Hk Hp Hdate).
    reflexivity. }
  rewrite E. cbn [fst snd]. split; [reflexivity|].
  rewrite !filter_app, (prints_only_no_write _ Pf), (prints_only_no_write _ Pw).
  reflexivity.
Qed.

Lemma main_date_symbol_example :
  snd (main (fun _ _ _ => late_listing)
         (mkArgs ["SPY"%string; "date"%string] (mkDate 2025 1 1) (mkDate 2025 1 31)
                 None None "stock_data.json")) = None /\
  filter is_write
    (fst (main (fun _ _ _ => late_listing)
            (mkArgs ["SPY"%string; "date"%string] (mkDate 2025 1 1)
                    (mkDate 2025 1 31) None None "stock_data.json"))) = [].
Proof.
  refine (main_date_symbol (fun _ _ _ => late_listing)
            (mkArgs ["SPY"%string; "date"%string] (mkDate 2025 1 1) (mkDate 2025 1 31)
                    None None "stock_data.json")
            [Print (MsgAutoSelected "daily")] [] "daily"
            [("SPY"%string, (100 # 2)%Q); ("date"%string, (100 # 2)%Q)]
            [ mkPoint (mkDate 2025 1 2) [("SPY"%string, 100%Q)];
              mkPoint (mkDate 2025 1 3) [("SPY"%string, 101%Q)] ]
            (mkPoint (mkDate 2025 1 2) [("SPY"%string, 100%Q)])
            eq_refl eq_refl eq_refl (or_intror (or_introl eq_refl)) _
            (or_introl eq_refl) eq_refl).
  vm_compute. discriminate.
Defined.

(** X20. Without a frequency on the command line the two dates are parsed first:
    when one of them is not a date the run raises before it has printed,
    fetched or written anything. *)
Theorem main_invalid_date
    (yf_download : list string -> Date -> Date -> Closes) (args : Args) :
  arg_frequency args = None ->
  valid_date (arg_start args) = false \/ valid_date (arg_end args) = false ->
  main yf_download args = ([], None).
Proof.
  intros Hf Hv. unfold main, choose_frequency. rewrite Hf.
  unfold calculate_optimal_frequency, to_datetime.
  destruct Hv as [Hv | Hv]; rewrite Hv.
  - reflexivity.
  - destruct (valid_date (arg_start args)); reflexivity.
Qed.

Lemma main_invalid_date_example :
  main no_data
    (mkArgs ["SPY"%string] (mkDate 2025 2 30) (mkDate 2025 3 31)
            None None "stock_data.json")
  = ([], None).
Proof.
  exact (main_invalid_date no_data
           (mkArgs ["SPY"%string] (mkDate 2025 2 30) (mkDate 2025 3 31)
                   None None "stock_data.json")
           eq_refl (or_introl eq_refl)).
Defined.

End MainRuns.

(** ** Resampler *)

Section ResampleErrors.

(** X3. With a frequency other than ['daily'], a series that is not empty
    and holds a date that does not exist makes the resampler raise, also
    when the frequency is none of the three names: the dates are parsed
    before the frequency is looked at again. *)
Theorem resample_data_raises (data : list PricePoint) (frequency : string) :
  frequency <> "daily"%string ->
  data <> [] ->
  ~ valid_dates data ->
  resample_data data frequency = None.
Proof.
  intros Hd Hne Hv. unfold resample_data.
  apply String.eqb_neq in Hd. rewrite Hd.
  destruct data as [|p data]; [congruence|].
  unfold frame_of_records.
  destruct (to_datetime_all (p :: data)) as [pts|] eqn:E; [|reflexivity].
  exfalso. apply Hv. clear Hv Hne.
  revert pts E. generalize (p :: data) as l.
  induction l as [|q l IH]; intros pts H; [constructor|].
  simpl in H. unfold to_datetime in H.
  destruct (valid_date (date q)) eqn:Eq; [|discriminate].
  destruct (to_datetime_all l) as [tail|]; [|discriminate].
  constructor; [exact Eq | apply (IH tail); reflexivity].
Qed.

Lemma resample_data_raises_example :
  resample_data [mkPoint (mkDate 2025 2 30) [("SPY"%string, 100%Q)]] "yearly" = None.
Proof.
  refine (resample_data_raises
            [mkPoint (mkDate 2025 2 30) [("SPY"%string, 100%Q)]] "yearly" _ _ _).
  - discriminate.
  - discriminate.
  - intros H. inversion H as [|? ? Hp _]. discriminate Hp.
Defined.

(** X4. A frequency that is none of the three names leaves a series of valid
    dates as it is. *)
Theorem resample_data_other_frequency (data : list PricePoint) (frequency : string) :
  frequency <> "daily"%string ->
  frequency <> "weekly"%string ->
  frequency <> "monthly"%string ->
  valid_dates data ->
  resample_data data frequency = Some data.
Proof.
  intros Hd Hw Hm Hv. unfold resample_data.
  apply String.eqb_neq in Hd, Hw, Hm. rewrite Hd, Hw, Hm.
  destruct data as [|p data]; [reflexivity|].
  rewrite (frame_of_records_valid _ Hv). reflexivity.
Qed.

Lemma resample_data_other_frequency_example :
  resample_data two_months "yearly" = Some two_months.
Proof.
  exact (resample_data_other_frequency two_months "yearly"
           ltac:(discriminate) ltac:(discriminate) ltac:(discriminate)
           two_months_valid).
Defined.

End ResampleErrors.

Section WeeklyRows.

(** X5. The rows of the weekly resample are dated with Sundays, one row per
    Sunday in increasing order, and each of these Sundays ends the week of
    a point of the series: it is that point's date or one of the six days
    after it. *)
Theorem resample_data_weekly_sundays (data : list PricePoint) :
  valid_dates data ->
  exists weekly,
    resample_data data "weekly" = Some weekly /\
    StronglySorted date_lt (map date weekly) /\
    Forall (fun r =>
              weekday (date r) = 6 /\
              exists p, In p data /\
                        date r = week_end (date p) /\
                        0 <= toordinal (date r) - toordinal (date p) <= 6)
           weekly.
Proof.
  intros Hv. exists (resampled_entries week_end data).
  split; [apply resample_data_weekly; exact Hv|].
  split; [apply resampled_sorted|].
  apply Forall_forall. intros r Hr.
  destruct (resampled_row_origin week_end data r Hr) as (p & Hp & E).
  assert (Hvp : valid_date (date p) = true)
    by (unfold valid_dates in Hv; rewrite Forall_forall in Hv; apply Hv; exact Hp).
  destruct (week_end_next_sunday (date p) Hvp) as [Hs Hd].
  rewrite E. split; [exact Hs|].
  exists p. split; [exact Hp|]. split; [reflexivity | exact Hd].
Qed.

Lemma resample_data_weekly_sundays_example :
  exists weekly,
    resample_data gap_in_last_row "weekly" = Some weekly /\
    StronglySorted date_lt (map date weekly) /\
    Forall (fun r =>
              weekday (date r) = 6 /\
              exists p, In p gap_in_last_row /\
                        date r = week_end (date p) /\
                        0 <= toordinal (date r) - toordinal (date p) <= 6)
           weekly.
Proof.
  exact (resample_data_weekly_sundays gap_in_last_row gap_in_last_row_valid).
Defined.

End WeeklyRows.

Section ResampledBuckets.

Lemma last_valid_some_in (col : list (option Q)) (v : Q) :
  last_valid col = Some v -> In (Some v) col.
Proof.
  induction col as [|c col IH] using rev_ind; [discriminate|].
  rewrite last_valid_app. intros H. apply in_or_app.
  destruct c as [x|]; cbn in H.
  - right. left. exact H.
  - left. apply IH. exact H.
Qed.

Lemma last_valid_exists (col : list (option Q)) (v : Q) :
  In (Some v) col -> exists v', last_valid col = Some v'.
Proof.
  induction col as [|c col IH] using rev_ind; [intros []|].
  rewrite last_valid_app. intros H.
  destruct c as [x|]; cbn.
  - eexists. reflexivity.
  - apply in_app_or in H. destruct H as [H | [H | []]]; [|discriminate].
    apply IH. exact H.
Qed.

Lemma has_values_iff (entry : PricePoint) :
  has_values entry = true <-> values entry <> [].
Proof.
  unfold has_values. destruct (values entry) as [|kv vs]; simpl.
  - split; [discriminate | congruence].
  - split; [discriminate|]. intros _. apply Z.ltb_lt. lia.
Qed.

Lemma dict_get_some_values {V : Type} (k : string) (v : V) (d : dict V) :
  dict_get k d = Some v -> d <> [].
Proof. destruct d; [discriminate | discriminate]. Qed.

Lemma values_first_key (p : PricePoint) :
  values p <> [] -> exists s v, dict_get s (values p) = Some v.
Proof.
  destruct (values p) as [|[s v] vs]; [congruence|]. intros _.
  exists s, v. simpl. rewrite String.eqb_refl. reflexivity.
Qed.

Variable bin_of : Date -> Date.
Variable data : list PricePoint.

Lemma resampled_has_values (r : PricePoint) :
  In r (resampled_entries bin_of data) -> values r <> [].
Proof.
  unfold resampled_entries, entries_of_frame. intros H.
  apply filter_In in H. apply has_values_iff. tauto.
Qed.

Lemma resampled_row_present (p : PricePoint) :
  In p data -> values p <> [] ->
  exists r, In r (resampled_entries bin_of data) /\ date r = bin_of (date p).
Proof.
  intros Hp Hvals.
  destruct (values_first_key p Hvals) as (s & v & Hs).
  assert (Hcol : mem_string s (columns_of_records data) = true).
  { apply mem_string_In. apply columns_of_records_In. exists p. split; [exact Hp|].
    destruct (in_dec string_dec s (keys (values p))) as [H | H]; [exact H|].
    apply dict_get_none_not_key in H. congruence. }
  assert (Hlast : exists v', last_value s (bucket bin_of (bin_of (date p)) data) = Some v').
  { unfold last_value. apply (last_valid_exists _ v).
    apply in_map_iff. exists p. split; [exact Hs|].
    unfold bucket. apply filter_In. split; [apply chronological_In; exact Hp|].
    apply date_eqb_eq. reflexivity. }
  destruct Hlast as (v' & Hlast).
  unfold resampled_entries, entries_of_frame, dropna_all, resample_last.
  cbn [columns rows]. rewrite sort_index_map.
  set (mk := fun L : Date =>
               (L, fun c : string =>
                     if mem_string c (columns_of_records data)
                     then last_valid
                            (map (fun r : Row => cell r c)
                               (rows_of_bin bin_of L
                                  (map row_of_record (chronological data))))
                     else None)).
  assert (Hcell : cell (mk (bin_of (date p))) s = Some v').
  { unfold mk, cell. cbn [snd]. rewrite Hcol, rows_of_bin_map, map_map. exact Hlast. }
  exists (entry_of_row (columns_of_records data) (mk (bin_of (date p)))).
  split; [|reflexivity].
  apply filter_In. split.
  - apply in_map. apply filter_In. split.
    + apply in_map. apply bin_labels_In. exists (row_of_record p).
      split; [|reflexivity]. apply in_map. apply chronological_In. exact Hp.
    + apply existsb_exists. exists s. split.
      * apply mem_string_In. exact Hcol.
      * rewrite Hcell. reflexivity.
  - apply has_values_iff.
    apply (dict_get_some_values s (Num.round2 v')).
    unfold entry_of_row. cbn [values]. rewrite entry_values_get, Hcol, Hcell.
    reflexivity.
Qed.

Lemma resampled_row_source (r : PricePoint) :
  In r (resampled_entries bin_of data) ->
  exists p, In p data /\ values p <> [] /\ bin_of (date p) = date r.
Proof.
  intros Hr.
  destruct (values_first_key r (resampled_has_values r Hr)) as (s & v & Hs).
  destruct (resampled_row bin_of data r Hr) as [_ Hval].
  rewrite Hval in Hs.
  destruct (last_value s (bucket bin_of (date r) data)) as [v0|] eqn:El;
    [|discriminate].
  apply last_valid_some_in in El. apply in_map_iff in El.
  destruct El as (p & Hp & Hin). unfold bucket in Hin.
  apply filter_In in Hin. destruct Hin as [Hin Hb].
  rewrite chronological_In in Hin. apply date_eqb_eq in Hb.
  exists p. split; [exact Hin|]. split; [|exact Hb].
  apply (dict_get_some_values s v0). exact Hp.
Qed.

Lemma resampled_dates_iff (L : Date) :
  In L (map date (resampled_entries bin_of data)) <->
  exists p, In p data /\ values p <> [] /\ bin_of (date p) = L.
Proof.
  split.
  - intros H. apply in_map_iff in H. destruct H as (r & <- & Hr).
    apply resampled_row_source. exact Hr.
  - intros (p & Hp & Hv & <-).
    destruct (resampled_row_present p Hp Hv) as (r & Hr & E).
    rewrite <- E. apply in_map. exact Hr.
Qed.

End ResampledBuckets.

Section ResampleRows.

(** X6. A weekly or monthly resample has a row for a bucket exactly when a
    point of the bucket has a value: no row is without values, and no
    bucket that has a value is left out. *)
Theorem resample_data_rows (data : list PricePoint) (frequency : string) :
  frequency = "weekly"%string \/ frequency = "monthly"%string ->
  valid_dates data ->
  exists out,
    resample_data data frequency = Some out /\
    Forall (fun r => values r <> []) out /\
    forall L,
      In L (map date out) <->
      exists p, In p data /\ values p <> [] /\
                bin_of_frequency frequency (date p) = L.
Proof.
  intros [-> | ->] Hv.
  - exists (resampled_entries week_end data).
    split; [apply resample_data_weekly; exact Hv|]. split.
    + apply Forall_forall. apply resampled_has_values.
    + apply resampled_dates_iff.
  - exists (resampled_entries month_end data).
    split; [apply resample_data_monthly; exact Hv|]. split.
    + apply Forall_forall. apply resampled_has_values.
    + apply resampled_dates_iff.
Qed.

Lemma resample_data_rows_example :
  exists out,
    resample_data two_months "monthly" = Some out /\
    Forall (fun r => values r <> []) out /\
    forall L,
      In L (map date out) <->
      exists p, In p two_months /\ values p <> [] /\ month_end (date p) = L.
Proof.
  exact (resample_data_rows two_months "monthly" (or_intror eq_refl) two_months_valid).
Defined.

End ResampleRows.

Section Hundredths.

Lemma resample_data_last_values_aux (data : list PricePoint) (frequency : string) :
  frequency = "weekly"%string \/ frequency = "monthly"%string ->
  valid_dates data ->
  exists out,
    resample_data data frequency = Some out /\
    forall r, In r out ->
      forall symbol,
        dict_get symbol (values r)
        = option_map Num.round2
            (last_value symbol (bucket (bin_of_frequency frequency) (date r) data)).
Proof.
  intros [-> | ->] Hv.
  - exists (resampled_entries week_end data).
    split; [apply resample_data_weekly; exact Hv|].
    intros r Hr. apply resampled_row. exact Hr.
  - exists (resampled_entries month_end data).
    split; [apply resample_data_monthly; exact Hv|].
    intros r Hr. apply resampled_row. exact Hr.
Qed.

Lemma round_half_even_integer (n : Z) : Num.round_half_even (inject_Z n) = n.
Proof.
  unfold Num.round_half_even. rewrite Qfloor_Z.
  destruct (Qcompare_spec (inject_Z n - inject_Z n) (1 # 2)) as [H | H | H];
    [exfalso; lra | reflexivity | exfalso; lra].
Qed.

Lemma round2_hundredths (x : Q) :
  (Num.round2 x * 100 == inject_Z (Num.round_half_even (x * 100)))%Q.
Proof.
  unfold Num.round2. rewrite Qred_correct.
  unfold Qeq, Qmult, inject_Z. simpl. lia.
Qed.

(** Rounding a rounded number leaves it as it is. *)
Lemma round2_idempotent (x : Q) : Num.round2 (Num.round2 x) = Num.round2 x.
Proof.
  unfold Num.round2 at 1.
  rewrite (round_half_even_comp _ _ (round2_hundredths x)).
  rewrite round_half_even_integer. reflexivity.
Qed.

(** X7. Every value of a weekly or monthly resample is a whole number of
    hundredths: rounding it to two decimals again leaves it as it is. *)
Theorem resample_data_hundredths (data : list PricePoint) (frequency : string) :
  frequency = "weekly"%string \/ frequency = "monthly"%string ->
  valid_dates data ->
  exists out,
    resample_data data frequency = Some out /\
    forall r symbol v,
      In r out -> dict_get symbol (values r) = Some v ->
      Num.round2 v = v /\ exists n : Z, (v * 100 == inject_Z n)%Q.
Proof.
  intros Hf Hv.
  destruct (resample_data_last_values_aux data frequency Hf Hv) as (out & E & Hrow).
  exists out. split; [exact E|].
  intros r symbol v Hr Hs. rewrite (Hrow r Hr) in Hs.
  destruct (last_value symbol _) as [v0|]; [|discriminate].
  injection Hs as <-. split; [apply round2_idempotent|].
  eexists. apply round2_hundredths.
Qed.

End Hundredths.

Lemma resample_data_hundredths_example :
  exists out,
    resample_data gap_in_last_row "weekly" = Some out /\
    forall r symbol v,
      In r out -> dict_get symbol (values r) = Some v ->
      Num.round2 v = v /\ exists n : Z, (v * 100 == inject_Z n)%Q.
Proof.
  exact (resample_data_hundredths gap_in_last_row "weekly"
           (or_introl eq_refl) gap_in_last_row_valid).
Defined.

Section ResampleTwice.

Lemma strictly_sorted_unique (l1 : list Date) : forall l2,
  StronglySorted date_lt l1 -> StronglySorted date_lt l2 ->
  (forall x, In x l1 <-> In x l2) -> l1 = l2.
Proof.
  induction l1 as [|a l1 IH]; intros l2 H1 H2 Hiff.
  - destruct l2 as [|b l2]; [reflexivity|].
    exfalso. apply (Hiff b). left. reflexivity.
  - destruct l2 as [|b l2]; [exfalso; apply (Hiff a); left; reflexivity|].
    apply StronglySorted_inv in H1. destruct H1 as [S1 A1].
    apply StronglySorted_inv in H2. destruct H2 as [S2 A2].
    rewrite Forall_forall in A1, A2.
    assert (Eab : a = b).
    { destruct (proj1 (Hiff a) (or_introl eq_refl)) as [E | Ha]; [congruence|].
      destruct (proj2 (Hiff b) (or_introl eq_refl)) as [E | Hb]; [congruence|].
      exfalso. apply (date_lt_irrefl a).
      apply date_lt_trans with b; [apply A1; exact Hb | apply A2; exact Ha]. }
    subst b. f_equal. apply IH; trivial.
    intros x. split; intros Hx.
    + destruct (proj1 (Hiff x) (or_intror Hx)) as [E | Hx']; [|exact Hx'].
      subst x. exfalso. apply (date_lt_irrefl a). apply A1. exact Hx.
    + destruct (proj2 (Hiff x) (or_intror Hx)) as [E | Hx']; [|exact Hx'].
      subst x. exfalso. apply (date_lt_irrefl a). apply A2. exact Hx.
Qed.

Lemma sorted_dates_injective (l : list PricePoint) :
  StronglySorted date_lt (map date l) ->
  forall p r, In p l -> In r l -> date p = date r -> p = r.
Proof.
  induction l as [|a l IH]; intros Hs p r Hp Hr E; [destruct Hp|].
  simpl in Hs. apply StronglySorted_inv in Hs. destruct Hs as [Hs Hall].
  rewrite Forall_forall in Hall.
  assert (Hlt : forall q, In q l -> date_lt (date a) (date q))
    by (intros q Hq; apply Hall; apply in_map; exact Hq).
  destruct Hp as [<- | Hp]; destruct Hr as [<- | Hr].
  - reflexivity.
  - exfalso. apply (date_lt_irrefl (date a)). rewrite E at 2. apply Hlt. exact Hr.
  - exfalso. apply (date_lt_irrefl (date a)). rewrite <- E at 2. apply Hlt. exact Hp.
  - apply IH; assumption.
Qed.

Lemma last_value_all_same (symbol : string) (r : PricePoint) (l : list PricePoint) :
  l <> [] -> (forall p, In p l -> p = r) ->
  last_value symbol l = dict_get symbol (values r).
Proof.
  induction l as [|p l IH] using rev_ind; intros Hne Hall; [congruence|].
  rewrite last_value_app.
  assert (Ep : p = r) by (apply Hall; apply in_or_app; right; left; reflexivity).
  subst p.
  assert (E1 : last_value symbol [r] = dict_get symbol (values r))
    by (unfold last_value, last_valid; simpl; destruct (dict_get _ _); reflexivity).
  rewrite E1. destruct (dict_get symbol (values r)) eqn:Er; [reflexivity|].
  destruct l as [|q l]; [reflexivity|].
  apply IH; [discriminate|].
  intros p Hp. apply Hall. apply in_or_app. left. exact Hp.
Qed.

Lemma Forall2_by_date (P : PricePoint -> PricePoint -> Prop) (l1 : list PricePoint) :
  forall l2,
  map date l2 = map date l1 ->
  (forall r r', In r l1 -> In r' l2 -> date r' = date r -> P r r') ->
  Forall2 P l1 l2.
Proof.
  induction l1 as [|a l1 IH]; intros l2 E H.
  - destruct l2; [constructor | discriminate].
  - destruct l2 as [|b l2]; [discriminate|].
    simpl in E. injection E as Eb El. constructor.
    + apply H; simpl; auto.
    + apply IH; [exact El|]. intros r r' Hr Hr'. apply H; simpl; auto.
Qed.

(** Resampling rows that are one per bucket already, each dated with the
    end of its bucket and with a value, gives the same dates back and, for
    every symbol, the rounded value of the row. *)
Lemma resampled_entries_fixed (bin_of : Date -> Date) (once : list PricePoint) :
  StronglySorted date_lt (map date once) ->
  (forall r, In r once -> bin_of (date r) = date r) ->
  (forall r, In r once -> values r <> []) ->
  map date (resampled_entries bin_of once) = map date once /\
  forall r r',
    In r once -> In r' (resampled_entries bin_of once) -> date r' = date r ->
    forall symbol,
      dict_get symbol (values r')
      = option_map Num.round2 (dict_get symbol (values r)).
Proof.
  intros Hs Hb Hv.
  assert (Ed : map date (resampled_entries bin_of once) = map date once).
  { apply strictly_sorted_unique; [apply resampled_sorted | exact Hs |].
    intros L. rewrite resampled_dates_iff. split.
    - intros (p & Hp & _ & <-). rewrite (Hb p Hp). apply in_map. exact Hp.
    - intros H. apply in_map_iff in H. destruct H as (p & <- & Hp).
      exists p. split; [exact Hp|]. split; [apply Hv; exact Hp | apply Hb; exact Hp]. }
  split; [exact Ed|].
  intros r r' Hr Hr' E symbol.
  destruct (resampled_row bin_of once r' Hr') as [_ Hval].
  rewrite Hval. f_equal. apply last_value_all_same.
  - intros Hnil.
    assert (Hin : In r (bucket bin_of (date r') once)).
    { unfold bucket. apply filter_In. split; [apply chronological_In; exact Hr|].
      apply date_eqb_eq. rewrite (Hb r Hr). symmetry. exact E. }
    rewrite Hnil in Hin. destruct Hin.
  - intros p Hp. unfold bucket in Hp. apply filter_In in Hp.
    destruct Hp as [Hp Hbp]. rewrite chronological_In in Hp.
    apply date_eqb_eq in Hbp. rewrite (Hb p Hp) in Hbp.
    apply (sorted_dates_injective once Hs); [exact Hp | exact Hr | congruence].
Qed.

Lemma week_end_of_sunday (d : Date) : weekday d = 6 -> week_end d = d.
Proof. intros H. unfold week_end. rewrite H. reflexivity. Qed.

Lemma bin_of_frequency_fixed (frequency : string) (d : Date) :
  frequency = "weekly"%string \/ frequency = "monthly"%string ->
  valid_date d = true ->
  bin_of_frequency frequency (bin_of_frequency frequency d)
  = bin_of_frequency frequency d.
Proof.
  intros [-> | ->] Hv; unfold bin_of_frequency; cbn [String.eqb Ascii.eqb Bool.eqb].
  - apply week_end_of_sunday. apply week_end_next_sunday. exact Hv.
  - reflexivity.
Qed.

Lemma resample_data_entries (data : list PricePoint) (frequency : string) :
  frequency = "weekly"%string \/ frequency = "monthly"%string ->
  valid_dates data ->
  resample_data data frequency
  = Some (resampled_entries (bin_of_frequency frequency) data).
Proof.
  intros [-> | ->] Hv;
    [apply resample_data_weekly | apply resample_data_monthly]; exact Hv.
Qed.

(** X8. Resampling a weekly resample weekly, or a monthly resample monthly,
    changes nothing but possibly the order of the fields within a row: the
    same dates come back, and every row has the same value for every
    symbol. *)
Theorem resample_data_twice
    (data once : list PricePoint) (frequency : string) :
  frequency = "weekly"%string \/ frequency = "monthly"%string ->
  valid_dates data ->
  resample_data data frequency = Some once ->
  valid_dates once ->
  exists twice,
    resample_data once frequency = Some twice /\
    map date twice = map date once /\
    Forall2 (fun r r' => forall symbol,
               dict_get symbol (values r') = dict_get symbol (values r))
            once twice.
Proof.
  intros Hf Hv Honce Hvo.
  rewrite (resample_data_entries data frequency Hf Hv) in Honce.
  injection Honce as <-.
  set (bin_of := bin_of_frequency frequency) in *.
  set (once := resampled_entries bin_of data) in *.
  exists (resampled_entries bin_of once).
  split; [apply resample_data_entries; assumption|].
  destruct (resampled_entries_fixed bin_of once) as [Ed Hall].
  - apply resampled_sorted.
  - intros r Hr.
    destruct (resampled_row_origin bin_of data r Hr) as (p & Hp & ->).
    apply bin_of_frequency_fixed; [exact Hf|].
    unfold valid_dates in Hv. rewrite Forall_forall in Hv. apply Hv. exact Hp.
  - apply resampled_has_values.
  - split; [exact Ed|].
    apply Forall2_by_date; [exact Ed|].
    intros r r' Hr Hr' E symbol.
    rewrite (Hall r r' Hr Hr' E symbol).
    destruct (resampled_row bin_of data r Hr) as [_ Hval]. rewrite Hval.
    destruct (last_value symbol _); [|reflexivity].
    cbn [option_map]. rewrite round2_idempotent. reflexivity.
Qed.

Lemma resample_data_twice_example :
  exists twice,
    resample_data
      [mkPoint (mkDate 2025 1 12) [("SPY"%string, 100%Q); ("QQQ"%string, 102%Q)]]
      "weekly" = Some twice /\
    map date twice = [mkDate 2025 1 12] /\
    Forall2 (fun r r' => forall symbol,
               dict_get symbol (values r') = dict_get symbol (values r))
            [mkPoint (mkDate 2025 1 12) [("SPY"%string, 100%Q); ("QQQ"%string, 102%Q)]]
            twice.
Proof.
  refine (resample_data_twice gap_in_last_row
            [mkPoint (mkDate 2025 1 12) [("SPY"%string, 100%Q); ("QQQ"%string, 102%Q)]]
            "weekly" (or_introl eq_refl) gap_in_last_row_valid _ _).
  - vm_compute. reflexivity.
  - repeat constructor.
Defined.

End ResampleTwice.

(** ** Normalizer *)

Section NormalizerInvariants.

Variable close_prices : DataFrame.
Hypothesis Hnonzero : nonzero_closes close_prices.

Lemma dropna_In (s : Series) (d : Date) (v : Q) :
  In (d, v) (dropna s) <-> In (d, Some v) s.
Proof.
  induction s as [|[d' [v'|]] s IH]; simpl.
  - tauto.
  - rewrite IH. split; intros [H | H]; auto; left; congruence.
  - rewrite IH. split; [auto | intros [H | H]; [discriminate | exact H]].
Qed.

Lemma column_In (symbol : string) (d : Date) (c : option Q) :
  In (d, c) (column close_prices symbol) <->
  exists r, In r (rows close_prices) /\ label_of r = d /\ cell r symbol = c.
Proof.
  unfold column. rewrite in_map_iff. split.
  - intros (r & E & Hr). injection E as <- <-. eauto.
  - intros (r & Hr & <- & <-). eauto.
Qed.

Lemma series_at_in (s : Series) (d : Date) (x : Q) :
  series_at s d = Some x -> In (d, Some x) s.
Proof.
  induction s as [|[d' v] s IH]; simpl; [discriminate|].
  destruct (date_eqb d d') eqn:E.
  - apply date_eqb_eq in E. subst. intros ->. left. reflexivity.
  - intros H. right. apply IH. exact H.
Qed.


(** What the values of the assigned series are. *)
Lemma rebased_In (symbol : string) (d : Date) (x : Q) :
  In (d, Some x) (rebased close_prices symbol) ->
  exists d0 p0 rest c,
    dropna (column close_prices symbol) = (d0, p0) :: rest /\
    (exists r, In r (rows close_prices) /\ label_of r = d /\ cell r symbol = Some c) /\
    (x == c / p0 * 100)%Q /\ x = (c / p0 * 100)%Q.
Proof.
  unfold rebased.
  destruct (dropna (column close_prices symbol)) as [|[d0 p0] rest] eqn:E;
    [intros []|].
  intros H. apply in_map_iff in H. destruct H as ([d' c] & Hdv & Hin).
  cbn [fst snd] in Hdv. rewrite <- E in Hin.
  apply dropna_In in Hin. apply column_In in Hin.
  unfold np_div in Hdv. destruct (Qeq_bool p0 0); [discriminate|].
  injection Hdv as <- <-.
  exists d0, p0, rest, c. split; [reflexivity|].
  split; [exact Hin|]. split; reflexivity.
Qed.





Lemma normalize_fold (symbols : list string) :
  normalize symbols close_prices
  = fold_left (normalize_step close_prices) symbols (mkFrame [] []).
Proof.
  unfold normalize. generalize (mkFrame [] []) as df.
  induction symbols as [|s symbols IH]; intros df; simpl; [reflexivity|].
  rewrite IH. f_equal. unfold normalize_step, has_data, rebased.
  destruct (mem_string s (columns close_prices)); [|reflexivity].
  destruct (dropna (column close_prices s)) as [|[d0 p0] rest]; reflexivity.
Qed.

Lemma set_column_rows (df : DataFrame) (c : string) (s : Series) :
  rows (set_column df c s)
  = match rows df, s with
    | [], _ :: _ =>
        map (fun dv => (fst dv, fun c' => if String.eqb c' c then snd dv else None)) s
    | _, _ =>
        map (fun r => (label_of r,
                       fun c' => if String.eqb c' c then series_at s (label_of r)
                                 else cell r c'))
            (rows df)
    end.
Proof.
  unfold set_column. destruct (rows df); destruct s; reflexivity.
Qed.


Lemma sound_step (df : DataFrame) (symbol : string) :
  sound_frame close_prices df ->
  sound_frame close_prices (normalize_step close_prices df symbol).
Proof.
  intros Hs. unfold normalize_step.
  destruct (has_data close_prices symbol); [|exact Hs].
  intros r c x Hr Hc. rewrite set_column_rows in Hr.
  destruct (rows df) as [|r0 rs] eqn:Er.
  - destruct (rebased close_prices symbol) as [|dv dvs] eqn:Es; [destruct Hr|].
    apply in_map_iff in Hr. destruct Hr as (dv' & <- & Hin).
    unfold cell in Hc. cbn [snd label_of fst] in *.
    destruct (String.eqb c symbol) eqn:Ec; [|discriminate].
    apply String.eqb_eq in Ec. subst c. rewrite Es, <- Hc.
    destruct dv'. exact Hin.
  - assert (Hr' : In r (map (fun r => (label_of r,
                        fun c' => if String.eqb c' symbol
                                  then series_at (rebased close_prices symbol) (label_of r)
                                  else cell r c')) (rows df))).
    { rewrite Er. destruct (rebased close_prices symbol); exact Hr. }
    apply in_map_iff in Hr'. destruct Hr' as (r' & <- & Hin).
    unfold cell in Hc. cbn [snd label_of fst] in *.
    destruct (String.eqb c symbol) eqn:Ec.
    + apply String.eqb_eq in Ec. subst c. apply series_at_in. exact Hc.
    + apply (Hs r' c x); [exact Hin | exact Hc].
Qed.

Lemma sound_normalize (symbols : list string) :
  sound_frame close_prices (normalize symbols close_prices).
Proof.
  rewrite normalize_fold.
  assert (G : forall df, sound_frame close_prices df ->
                         sound_frame close_prices
                           (fold_left (normalize_step close_prices) symbols df)).
  { induction symbols as [|s symbols IH]; intros df H; simpl; [exact H|].
    apply IH. apply sound_step. exact H. }
  apply G. intros r c x [].
Qed.









Lemma fold_left_pointwise {A B : Type} (f g : A -> B -> A) :
  (forall a b, f a b = g a b) ->
  forall l a, fold_left f l a = fold_left g l a.
Proof.
  intros H. induction l as [|b l IH]; intros a; simpl; [reflexivity|].
  rewrite H. apply IH.
Qed.

Lemma entry_of_normalized_get (symbols : list string) (normalized : DataFrame)
    (r : Row) (s : string) :
  dict_get s (values (entry_of_normalized symbols normalized r))
  = if mem_string s symbols && mem_string s (columns normalized)
    then option_map Num.round2 (cell r s)
    else None.
Proof.
  unfold entry_of_normalized. cbn [values].
  rewrite (fold_left_pointwise _
             (fun entry col =>
                match (if mem_string col (columns normalized) then cell r col else None)
                with
                | Some v => dict_set col (Num.round2 v) entry
                | None => entry
                end))
    by (intros a b; destruct (mem_string b (columns normalized)); reflexivity).
  rewrite (entry_values_get
             (fun col => if mem_string col (columns normalized) then cell r col else None)).
  cbn [dict_get].
  destruct (mem_string s symbols); [|reflexivity].
  destruct (mem_string s (columns normalized)); [|reflexivity].
  cbn [andb]. destruct (cell r s); reflexivity.
Qed.


(** The list the loops of [fetch_equity_data] build: what each of its
    values is. *)
Lemma records_values (symbols : list string) (point : PricePoint)
    (symbol : string) (v : Q) :
  In point (records_of_normalized symbols (normalize symbols close_prices)) ->
  dict_get symbol (values point) = Some v ->
  In symbol symbols /\
  exists d0 p0 rest c,
    dropna (column close_prices symbol) = (d0, p0) :: rest /\
    (exists r, In r (rows close_prices) /\ label_of r = date point /\
               cell r symbol = Some c) /\
    v = Num.round2 (c / p0 * 100).
Proof.
  unfold records_of_normalized. intros Hp Hv.
  apply filter_In in Hp. destruct Hp as [Hp _].
  apply in_map_iff in Hp. destruct Hp as (r & <- & Hr).
  rewrite entry_of_normalized_get in Hv.
  destruct (mem_string symbol symbols) eqn:Es; [|discriminate].
  destruct (mem_string symbol (columns (normalize symbols close_prices)));
    [|discriminate].
  cbn [andb] in Hv. destruct (cell r symbol) as [x|] eqn:Ec; [|discriminate].
  injection Hv as <-.
  split; [apply mem_string_In; exact Es|].
  pose proof (sound_normalize symbols r symbol x Hr Ec) as Hin.
  destruct (rebased_In symbol _ x Hin) as (d0 & p0 & rest & c & E & Hrow & _ & Ex).
  exists d0, p0, rest, c. split; [exact E|]. split; [exact Hrow|].
  rewrite Ex. reflexivity.
Qed.



End NormalizerInvariants.

Section FetchDaily.

Lemma fetch_equity_data_daily (closes : Closes) (close_prices : DataFrame)
    (symbols : list string) (start_date end_date : Date) :
  close_prices_of symbols closes = Some close_prices ->
  snd (fetch_equity_data closes symbols start_date end_date "daily")
  = Some (records_of_normalized symbols (normalize symbols close_prices)).
Proof.
  intros H. unfold fetch_equity_data, bind, print, lift. rewrite H. reflexivity.
Qed.

Lemma late_listing_nonzero : nonzero_closes late_listing_table.
Proof.
  intros r c x [<- | [<- | []]] H; unfold cell, row_of_record in H;
    cbn [snd values dict_get] in H;
    repeat match type of H with
           | (if ?b then _ else _) = _ => destruct b
           end;
    try discriminate; injection H as <-; discriminate.
Defined.

(** X9. With the frequency ['daily'], every field of a point of the fetched
    series is for one of the symbols asked for, and that symbol has a close
    on the date of the point. *)
Theorem fetch_equity_data_fields
    (closes : Closes) (close_prices : DataFrame) (symbols : list string)
    (start_date end_date : Date) :
  close_prices_of symbols closes = Some close_prices ->
  nonzero_closes close_prices ->
  exists out,
    snd (fetch_equity_data closes symbols start_date end_date "daily") = Some out /\
    forall point symbol v,
      In point out -> dict_get symbol (values point) = Some v ->
      In symbol symbols /\
      exists r c, In r (rows close_prices) /\ label_of r = date point /\
                  cell r symbol = Some c.
Proof.
  intros Hc _. eexists.
  split; [apply (fetch_equity_data_daily _ _ _ _ _ Hc)|].
  intros point symbol v Hp Hv.
  destruct (records_values _ _ _ _ _ Hp Hv)
    as (Hs & d0 & p0 & rest & c & _ & (r & Hr & Hl & Hcell) & _).
  split; [exact Hs|]. exists r, c. tauto.
Qed.

Lemma fetch_equity_data_fields_example :
  exists out,
    snd (fetch_equity_data late_listing ["NEW"%string; "SPY"%string]
           (mkDate 2025 1 1) (mkDate 2025 1 31) "daily") = Some out /\
    forall point symbol v,
      In point out -> dict_get symbol (values point) = Some v ->
      In symbol ["NEW"%string; "SPY"%string] /\
      exists r c, In r (rows late_listing_table) /\ label_of r = date point /\
                  cell r symbol = Some c.
Proof.
  exact (fetch_equity_data_fields late_listing late_listing_table
           ["NEW"%string; "SPY"%string] (mkDate 2025 1 1) (mkDate 2025 1 31)
           eq_refl late_listing_nonzero).
Defined.





Lemma resample_data_keeps_values (data out : list PricePoint) (frequency : string) :
  Forall (fun p => values p <> []) data ->
  resample_data data frequency = Some out ->
  Forall (fun p => values p <> []) out.
Proof.
  intros Hd. unfold resample_data.
  destruct (String.eqb frequency "daily"); [intros E; injection E as <-; exact Hd|].
  destruct data as [|p data]; [intros E; injection E as <-; exact Hd|].
  destruct (frame_of_records (p :: data)) as [df|]; [|discriminate].
  assert (He : forall df', Forall (fun p => values p <> [])
                             (entries_of_frame (dropna_all df'))).
  { intros df'. apply Forall_forall. intros r Hr. unfold entries_of_frame in Hr.
    apply filter_In in Hr. apply has_values_iff. tauto. }
  destruct (String.eqb frequency "weekly");
    [intros E; injection E as <-; apply He|].
  destruct (String.eqb frequency "monthly");
    [intros E; injection E as <-; apply He|].
  intros E; injection E as <-; exact Hd.
Qed.

(** X12. Whatever the frequency, a point of the fetched series has at least one
    value besides its date. *)
Theorem fetch_equity_data_has_values
    (closes : Closes) (symbols : list string) (start_date end_date : Date)
    (frequency : string) (out : list PricePoint) :
  snd (fetch_equity_data closes symbols start_date end_date frequency) = Some out ->
  Forall (fun p => values p <> []) out.
Proof.
  unfold fetch_equity_data, bind, print, lift.
  destruct (close_prices_of symbols closes) as [close_prices|]; [|discriminate].
  cbn [snd]. intros H.
  destruct (resample_data _ frequency) as [res|] eqn:E; [|discriminate].
  cbn [snd] in H. injection H as <-.
  refine (resample_data_keeps_values _ _ _ _ E).
  apply Forall_forall. intros r Hr. unfold records_of_normalized in Hr.
  apply filter_In in Hr. apply has_values_iff. tauto.
Qed.

Lemma fetch_equity_data_has_values_example :
  Forall (fun p => values p <> [])
    [mkPoint (mkDate 2025 1 5) [("NEW"%string, 100%Q); ("SPY"%string, 101%Q)]].
Proof.
  exact (fetch_equity_data_has_values late_listing ["NEW"%string; "SPY"%string]
           (mkDate 2025 1 1) (mkDate 2025 1 31) "weekly"
           [mkPoint (mkDate 2025 1 5) [("NEW"%string, 100%Q); ("SPY"%string, 101%Q)]]
           ltac:(vm_compute; reflexivity)).
Defined.

End FetchDaily.
